(** * debt-data: the World Bank IDS API guides, embedded and verified

    The repository holds three notebooks:
    - [api-guide/ids-api-guide-python-1.ipynb] (Python, part 1): queries the
      catalog endpoints (sources, indicators, debtor and creditor locations);
    - the R rendering of part 1;
    - the Python part 2: fetches a data frame, converts units with [formatNum]
      and cleans the region names.

    The notebooks are straight-line cells over dynamically typed JSON values.
    The embedding follows the cells that do the work: the indicator request
    and its loop, the total count, the definition lookup, the two location
    cells, [formatNum] and the region-name cleanup.  Decoded JSON is an
    inductive type; Python's subscripting, [len] and iteration come with the
    exceptions they raise; the notebook kernel (its global variables, its
    output and the requests it sent) is an explicit state threaded through a
    small state-and-exception monad.  The calls into wbdata and plotly, and
    the web service itself, are outside the repository: the service is a
    parameter of every cell. *)

From Stdlib Require Import ZArith QArith Qround Qabs Lqa List String Ascii Bool Lia.
Import ListNotations.

Local Close Scope Q_scope.
Local Open Scope string_scope.
Local Open Scope list_scope.

(** ** Decoded JSON ([requests.Response.json()]) *)

(** A decoded body: [None], [bool], numbers, [str], [list] and [dict] with
    string keys.  Numbers are kept as integers: the cells only pass them
    on.  A dict is kept as the list of its bindings, in order; its keys are
    pairwise distinct, as in any Python dict. *)
#[warnings="-register-all"]
Inductive json : Type :=
| JNull
| JBool (b : bool)
| JNum (z : Z)
| JStr (s : string)
| JArr (items : list json)
| JObj (fields : list (string * json)).

(** ** Python exceptions raised by the cells *)

(** The key carried by a [KeyError]: a field name, or an integer used as a
    subscript of a dict. *)
Inductive pykey : Type :=
| KStr (s : string)
| KInt (i : nat).

Inductive PyExc : Type :=
| KeyError (k : pykey)          (* d[k] on a dict without k *)
| IndexError                    (* l[i], s[i] out of range *)
| TypeError                     (* subscript, len or iteration on the wrong kind *)
| NameError (v : string)        (* a global read before any cell bound it *)
| ConnectionError               (* requests.get failed *)
| JSONDecodeError.              (* .json() on a body that is not JSON *)

Inductive PyResult (A : Type) : Type :=
| Ok (a : A)
| Raise (e : PyExc).
Arguments Ok {A} a.
Arguments Raise {A} e.

Definition pbind {A B} (r : PyResult A) (f : A -> PyResult B) : PyResult B :=
  match r with
  | Ok a => f a
  | Raise e => Raise e
  end.

(** *** Subscripting, [len], iteration, [==] *)

Fixpoint assoc (k : string) (fields : list (string * json)) : option json :=
  match fields with
  | [] => None
  | (k', v) :: rest => if String.eqb k k' then Some v else assoc k rest
  end.

(** [v[k]] with a string subscript. *)
Definition getitem_str (v : json) (k : string) : PyResult json :=
  match v with
  | JObj fields =>
      match assoc k fields with
      | Some x => Ok x
      | None => Raise (KeyError (KStr k))
      end
  | _ => Raise TypeError
  end.

(** [v[i]] with a non-negative integer subscript (the cells only use the
    literals 0 and 1 and the values of [range(0, listLen)]). *)
Definition getitem_int (v : json) (i : nat) : PyResult json :=
  match v with
  | JArr items =>
      match nth_error items i with
      | Some x => Ok x
      | None => Raise IndexError
      end
  | JStr s =>
      match String.get i s with
      | Some c => Ok (JStr (String c EmptyString))
      | None => Raise IndexError
      end
  | JObj _ => Raise (KeyError (KInt i))
  | _ => Raise TypeError
  end.

(** [len(v)]. *)
Definition py_len (v : json) : PyResult nat :=
  match v with
  | JArr items => Ok (List.length items)
  | JStr s => Ok (String.length s)
  | JObj fields => Ok (List.length fields)
  | _ => Raise TypeError
  end.

Fixpoint chars (s : string) : list json :=
  match s with
  | EmptyString => []
  | String c rest => JStr (String c EmptyString) :: chars rest
  end.

(** The values a [for x in v] loop visits: the items of a list, the
    characters of a string, the keys of a dict. *)
Definition py_iter (v : json) : PyResult (list json) :=
  match v with
  | JArr items => Ok items
  | JStr s => Ok (chars s)
  | JObj fields => Ok (map (fun kv => JStr (fst kv)) fields)
  | _ => Raise TypeError
  end.

(** [v == s] for a string [s]: only an equal string compares equal. *)
Definition eq_str (v : json) (s : string) : bool :=
  match v with
  | JStr t => String.eqb t s
  | _ => false
  end.

(** ** The transport: one GET against the World Bank API *)

(** The query of
    [http://api.worldbank.org/v2/{path}?per_page={n}&format=json&source={id}],
    kept by its components; [per_page] and [source] may be left out, as in
    the first indicators request. *)
Record Query : Type := mkQuery {
  path : string;
  per_page : option nat;
  source : option nat
}.

(** What [requests.get(url).json()] evaluates to: the service is outside the
    repository and is a parameter of every cell. *)
Definition Server : Type := Query -> PyResult json.

(** ** The notebook kernel *)

(** The data frame of the location cells: two columns, [id] and [value]. *)
Definition frame : Type := list (json * json).

(** What a [print] call was given. *)
Inductive shown : Type :=
| ShowVal (v : json)            (* print(v) *)
| ShowCount (v : json)          (* print("There are " + str(v) + " IDS indicators") *)
| ShowFrame (rows : frame).     (* print(rows) *)

(** The kernel state a cell runs in: the requests sent so far, the output,
    and the globals that outlive a cell or are read by a later one.  Loop
    temporaries ([i], [code], [name], [listLen], [dict_entity]) are
    let-bound in the cells below. *)
Record Kernel : Type := mkKernel {
  sent : list Query;
  stdout : list shown;
  indicatorsJSON : option json;
  IDSindicators : option (json * json);
  df : option frame;
  dlocationsList : option frame;
  clocationsList : option frame
}.

Definition fresh_kernel : Kernel :=
  mkKernel [] [] None None None None None.

Definition log_request (q : Query) (k : Kernel) : Kernel :=
  mkKernel (sent k ++ [q]) (stdout k) (indicatorsJSON k) (IDSindicators k)
           (df k) (dlocationsList k) (clocationsList k).

Definition write_stdout (x : shown) (k : Kernel) : Kernel :=
  mkKernel (sent k) (stdout k ++ [x]) (indicatorsJSON k) (IDSindicators k)
           (df k) (dlocationsList k) (clocationsList k).

Definition set_indicatorsJSON (v : json) (k : Kernel) : Kernel :=
  mkKernel (sent k) (stdout k) (Some v) (IDSindicators k)
           (df k) (dlocationsList k) (clocationsList k).

Definition set_IDSindicators (t : json * json) (k : Kernel) : Kernel :=
  mkKernel (sent k) (stdout k) (indicatorsJSON k) (Some t)
           (df k) (dlocationsList k) (clocationsList k).

Definition set_df (f : frame) (k : Kernel) : Kernel :=
  mkKernel (sent k) (stdout k) (indicatorsJSON k) (IDSindicators k)
           (Some f) (dlocationsList k) (clocationsList k).

Definition set_dlocationsList (f : frame) (k : Kernel) : Kernel :=
  mkKernel (sent k) (stdout k) (indicatorsJSON k) (IDSindicators k)
           (df k) (Some f) (clocationsList k).

Definition set_clocationsList (f : frame) (k : Kernel) : Kernel :=
  mkKernel (sent k) (stdout k) (indicatorsJSON k) (IDSindicators k)
           (df k) (dlocationsList k) (Some f).

(** A cell (or a statement of one): it transforms the kernel and either
    completes with a value or stops at an exception; the kernel keeps
    whatever was done before the exception. *)
Definition Cell (A : Type) : Type := Kernel -> Kernel * PyResult A.

Definition ret {A} (a : A) : Cell A := fun k => (k, Ok a).

Definition bind {A B} (c : Cell A) (f : A -> Cell B) : Cell B :=
  fun k =>
    match c k with
    | (k', Ok a) => f a k'
    | (k', Raise e) => (k', Raise e)
    end.

Declare Scope cell_scope.
Delimit Scope cell_scope with cell.
Notation "x <- c ;; f" := (bind c (fun x => f))
  (at level 61, c at next level, right associativity) : cell_scope.
Notation "c ;;; f" := (bind c (fun _ => f))
  (at level 61, right associativity) : cell_scope.
Local Open Scope cell_scope.

(** An expression that may raise, evaluated without touching the kernel. *)
Definition eval {A} (r : PyResult A) : Cell A := fun k => (k, r).

Definition modify (f : Kernel -> Kernel) : Cell unit := fun k => (f k, Ok tt).

(** Reading a global: [NameError] when no cell bound it yet. *)
Definition read_global {A} (name : string) (get : Kernel -> option A) : Cell A :=
  fun k =>
    match get k with
    | Some v => (k, Ok v)
    | None => (k, Raise (NameError name))
    end.

(** [requests.get(url).json()]: the request is sent, then the decoded body
    (or the exception) comes back. *)
Definition requests_get_json (srv : Server) (q : Query) : Cell json :=
  fun k => (log_request q k, srv q).

Definition print (x : shown) : Cell unit := modify (write_stdout x).

(** [for x in xs: body(x)], returning the values the body computed, in
    order; an exception in the body ends the loop. *)
Fixpoint for_each {A B} (xs : list A) (body : A -> Cell B) : Cell (list B) :=
  match xs with
  | [] => ret []
  | x :: rest =>
      b <- body x ;;
      bs <- for_each rest body ;;
      ret (b :: bs)
  end.

(** ** Part 1, section 2: the indicator cells *)

(** [http://api.worldbank.org/v2/indicator?format=json&source=6], with or
    without [&per_page=n]. *)
Definition indicators_url (n : option nat) : Query :=
  mkQuery "indicator" n (Some 6).

(** [[
indicators = requests.get(url)
indicatorsJSON = indicators.json()
]] *)
Definition fetch_indicators (srv : Server) (q : Query) : Cell unit :=
  body <- requests_get_json srv q ;;
  modify (set_indicatorsJSON body).

(** [[
print("There are " + str(indicatorsJSON[0]["total"]) + " IDS indicators")
]]
    The cell hands back the total it printed. *)
Definition total_cell : Cell json :=
  env <- read_global "indicatorsJSON" indicatorsJSON ;;
  paging <- eval (getitem_int env 0) ;;
  total <- eval (getitem_str paging "total") ;;
  print (ShowCount total) ;;;
  ret total.

(** [[
for i in indicatorsJSON[1]:
    IDSindicators = (i["id"],i["name"])
]]
    The loop hands back the tuples it bound to [IDSindicators], one per
    iteration, in order. *)
Definition indicators_loop : Cell (list (json * json)) :=
  env <- read_global "indicatorsJSON" indicatorsJSON ;;
  items <- eval (getitem_int env 1) ;;
  xs <- eval (py_iter items) ;;
  for_each xs (fun i =>
    a <- eval (getitem_str i "id") ;;
    b <- eval (getitem_str i "name") ;;
    modify (set_IDSindicators (a, b)) ;;;
    ret (a, b)).

(** The whole cell: request, then loop.  The guide runs it with
    [indicators_url (Some 500)]. *)
Definition indicators_cell (srv : Server) (q : Query)
  : Cell (list (json * json)) :=
  fetch_indicators srv q ;;;
  indicators_loop.

(** [[
for dict_entity in indicatorsJSON[1]:
    if dict_entity["id"] == indicator:
        print(dict_entity["sourceNote"])
    else:
        pass
]]
    The guide sets [indicator = "DT.DOD.DLXF.CD"] and reads the field
    ["sourceNote"]; both are parameters here. *)
Definition definition_cell (indicator field : string) : Cell unit :=
  env <- read_global "indicatorsJSON" indicatorsJSON ;;
  items <- eval (getitem_int env 1) ;;
  xs <- eval (py_iter items) ;;
  for_each xs (fun dict_entity =>
    id <- eval (getitem_str dict_entity "id") ;;
    if eq_str id indicator
    then note <- eval (getitem_str dict_entity field) ;;
         print (ShowVal note)
    else ret tt) ;;;
  ret tt.

(** ** Part 1, section 3: the location cells *)

(** [http://api.worldbank.org/v2/sources/6/country?per_page=300&format=JSON]
    and the same with [counterpart-area]. *)
Definition dlocations_url : Query := mkQuery "sources/6/country" (Some 300) None.
Definition clocations_url : Query :=
  mkQuery "sources/6/counterpart-area" (Some 300) None.

(** [[
dlocations = requests.get(url)
dlocationsJSON = dlocations.json()
dlocations = dlocationsJSON["source"][0]["concept"][0]["variable"]
listLen = int(len(dlocations))
df = pd.DataFrame(columns=["id", "value"])
for i in range(0,listLen):
    code = dlocations[i]["id"]
    name = dlocations[i]["value"]
    df = df.append({"id":code, "value":name}, ignore_index = True)
dlocationsList = df
print(dlocationsList.head(n=10))
]]
    The creditor cell is the same text over [clocations...]; [assign] is the
    assignment to [dlocationsList] or to [clocationsList]. *)
Definition locations_cell (srv : Server) (q : Query)
    (assign : frame -> Kernel -> Kernel) : Cell unit :=
  locationsJSON <- requests_get_json srv q ;;
  src <- eval (getitem_str locationsJSON "source") ;;
  src0 <- eval (getitem_int src 0) ;;
  concept <- eval (getitem_str src0 "concept") ;;
  concept0 <- eval (getitem_int concept 0) ;;
  locations <- eval (getitem_str concept0 "variable") ;;
  listLen <- eval (py_len locations) ;;
  modify (set_df []) ;;;
  for_each (seq 0 listLen) (fun i =>
    entry <- eval (getitem_int locations i) ;;
    code <- eval (getitem_str entry "id") ;;
    name <- eval (getitem_str entry "value") ;;
    rows <- read_global "df" df ;;
    modify (set_df (rows ++ [(code, name)]))) ;;;
  rows <- read_global "df" df ;;
  modify (assign rows) ;;;
  print (ShowFrame (firstn 10 rows)).

Definition dlocations_cell (srv : Server) : Cell unit :=
  locations_cell srv dlocations_url set_dlocationsList.

Definition clocations_cell (srv : Server) : Cell unit :=
  locations_cell srv clocations_url set_clocationsList.

(** ** Part 2: unit conversion and region names *)

(** Python 3's [round(y)] with one argument: the nearest integer, a tie
    going to the even neighbour.  The argument is an exact rational here;
    the notebook's values are floats. *)
Definition py_round (y : Q) : Z :=
  let f := Qfloor y in
  match Qcompare (y - inject_Z f) (1 # 2) with
  | Lt => f
  | Gt => (f + 1)%Z
  | Eq => if Z.even f then f else (f + 1)%Z
  end.

(** [[
def formatNum(x):
    y = x/1000000000
    z = round(y)
    return(z)
]] *)
Definition formatNum (x : Q) : Z :=
  let y := (x / inject_Z 1000000000)%Q in
  let z := py_round y in
  z.

(** [s.replace(pat, rep)]: every occurrence of [pat], found left to right
    without overlap, becomes [rep].  [skip] counts the characters of a match
    still to be dropped. *)
Fixpoint replace_from (pat rep : string) (skip : nat) (s : string) : string :=
  match s with
  | EmptyString => EmptyString
  | String c rest =>
      match skip with
      | S n => replace_from pat rep n rest
      | O =>
          if String.prefix pat s
          then rep ++ replace_from pat rep (String.length pat - 1) rest
          else String c (replace_from pat rep 0 rest)
      end
  end.

(** With the empty pattern Python puts [rep] before every character and at
    the end. *)
Fixpoint replace_empty (rep s : string) : string :=
  match s with
  | EmptyString => rep
  | String c rest => rep ++ String c (replace_empty rep rest)
  end.

Definition str_replace (pat rep s : string) : string :=
  match pat with
  | EmptyString => replace_empty rep s
  | _ => replace_from pat rep 0 s
  end.

(** [[
EXDclean["Region"] = EXDclean["Region"].str.replace("excluding high income","")
                                       .str.replace(")","").str.replace("(","")
]]
    for one region name; the column is cleaned name by name.  None of the
    three patterns is read as a regular expression: the first has no
    metacharacter and pandas takes a one-character pattern literally. *)
Definition clean_region (name : string) : string :=
  str_replace "(" "" (str_replace ")" "" (str_replace "excluding high income" "" name)).

Definition clean_Region (column : list string) : list string :=
  map clean_region column.

(** ** The R rendering of the definition lookup *)

(** [[
definition <- which(indicatorsJSON$id == indicator)
print(indicatorsJSON$sourceNote[definition])
]]
    over the two columns of the data frame, character vectors whose
    entries may be [NA]. *)
Module R.

Definition character : Type := list (option string).

(** [col == s], element by element; [NA == s] is [NA]. *)
Definition eq (col : character) (s : string) : list (option bool) :=
  map (option_map (fun t => String.eqb t s)) col.

(** [which(b)]: the 1-based positions holding [TRUE], in increasing
    order; [FALSE] and [NA] are passed over. *)
Fixpoint which_from (pos : nat) (b : list (option bool)) : list nat :=
  match b with
  | [] => []
  | Some true :: rest => pos :: which_from (S pos) rest
  | _ :: rest => which_from (S pos) rest
  end.

Definition which (b : list (option bool)) : list nat := which_from 1 b.

(** [col[idx]] for positive indices: a position past the end gives
    [NA]. *)
Definition subscript (col : character) (idx : list nat) : character :=
  map (fun i => match nth_error col (i - 1) with
                | Some x => x
                | None => None
                end) idx.

Definition definition (id : character) (indicator : string) : list nat :=
  which (eq id indicator).

Definition sourceNote_at (sourceNote : character) (definition : list nat)
  : character :=
  subscript sourceNote definition.

End R.

(** ** Fixtures: what the service answers *)

(** The list endpoints as the guide describes them: 50 results a page
    unless [per_page] says otherwise, the number of results in the paging
    header under [total].  No cell ever passes [page], so the first page is
    all the service is asked for. *)
Definition default_per_page : nat := 50.

Definition page_size (q : Query) : nat :=
  match per_page q with
  | Some n => n
  | None => default_per_page
  end.

Definition paging_header (total n : nat) : list (string * json) :=
  [ ("page", JNum 1);
    ("pages", JNum (Z.of_nat ((total + n - 1) / n)));
    ("per_page", JNum (Z.of_nat n));
    ("total", JNum (Z.of_nat total)) ].

(** The flat shape, answered to [indicator] and [sources]: a two-element
    array, paging header first, then the page of entries. *)
Definition flat_body (catalog : list json) (n : nat) : json :=
  JArr [ JObj (paging_header (List.length catalog) n);
         JArr (firstn n catalog) ].

(** The nested shape, answered to [sources/6/country] and
    [sources/6/counterpart-area]: the entries sit under
    [source[0].concept[0].variable]. *)
Definition nested_body (catalog : list json) (n : nat) : json :=
  JObj (paging_header (List.length catalog) n ++
        [ ("source",
           JArr [ JObj [ ("id", JStr "6");
                         ("name", JStr "International Debt Statistics");
                         ("concept",
                          JArr [ JObj [ ("id", JStr "Country");
                                        ("variable", JArr (firstn n catalog)) ] ]) ] ]) ]).

Definition flat_server (catalog : list json) : Server :=
  fun q => Ok (flat_body catalog (page_size q)).

Definition nested_server (catalog : list json) : Server :=
  fun q => Ok (nested_body catalog (page_size q)).


Definition nested_entry (id value : string) : json :=
  JObj [ ("id", JStr id); ("value", JStr value) ].

(** The first ten debtor locations, as the guide's output shows them. *)
Definition debtor_head : list json :=
  [ nested_entry "AFG" "Afghanistan"; nested_entry "AGO" "Angola";
    nested_entry "ALB" "Albania"; nested_entry "ARG" "Argentina";
    nested_entry "ARM" "Armenia"; nested_entry "AZE" "Azerbaijan";
    nested_entry "BDI" "Burundi"; nested_entry "BEN" "Benin";
    nested_entry "BFA" "Burkina Faso"; nested_entry "BGD" "Bangladesh" ].

(** The indicator the guide looks up, with the name and the definition the
    guide quotes. *)
Definition DLXF : json :=
  JObj [ ("id", JStr "DT.DOD.DLXF.CD");
         ("name", JStr "External debt stocks, long-term (DOD, current US$)");
         ("sourceNote",
          JStr "Long-term debt is debt that has an original or extended maturity of more than one year. It has three components: public, publicly guaranteed, and private nonguaranteed debt. Data are in current U.S. dollars.") ].

(** A catalog of [n] indicators with made-up codes, for scenarios that only
    depend on how many there are. *)
Definition numbered_entry (i : nat) : json :=
  JObj [ ("id", JStr ("IND." ++ String (ascii_of_nat (48 + i / 100 mod 10))
                       (String (ascii_of_nat (48 + i / 10 mod 10))
                         (String (ascii_of_nat (48 + i mod 10)) EmptyString))));
         ("name", JStr "indicator") ].

Definition numbered_catalog (n : nat) : list json :=
  map numbered_entry (seq 0 n).

(** ** The cells' loops as functions of the data *)

(** What a loop over [xs] gathers with a body that may raise: the values of
    the iterations completed, and the exception that ended it, if any. *)
Fixpoint collect {A B} (f : A -> PyResult B) (xs : list A)
  : list B * option PyExc :=
  match xs with
  | [] => ([], None)
  | x :: rest =>
      match f x with
      | Ok b => let (bs, e) := collect f rest in (b :: bs, e)
      | Raise e => ([], Some e)
      end
  end.

Definition outcome {B} (p : list B * option PyExc) : PyResult (list B) :=
  match snd p with
  | None => Ok (fst p)
  | Some e => Raise e
  end.

(** [(i["id"], i["name"])], left to right. *)
Definition flat_record (i : json) : PyResult (json * json) :=
  pbind (getitem_str i "id") (fun a =>
  pbind (getitem_str i "name") (fun b => Ok (a, b))).

(** [code = entry["id"]; name = entry["value"]]. *)
Definition nested_record (entry : json) : PyResult (json * json) :=
  pbind (getitem_str entry "id") (fun code =>
  pbind (getitem_str entry "value") (fun name => Ok (code, name))).

(** [body["source"][0]["concept"][0]["variable"]]. *)
Definition variable_of (body : json) : PyResult json :=
  pbind (getitem_str body "source") (fun src =>
  pbind (getitem_int src 0) (fun src0 =>
  pbind (getitem_str src0 "concept") (fun concept =>
  pbind (getitem_int concept 0) (fun concept0 =>
  getitem_str concept0 "variable")))).

(** The row the location loop appends at index [i]. *)
Definition row_at (locations : json) (i : nat) : PyResult (json * json) :=
  pbind (getitem_int locations i) nested_record.

(** One turn of the definition loop: the value it prints, if the test
    holds. *)
Definition note_of (indicator field : string) (dict_entity : json)
  : PyResult (option json) :=
  pbind (getitem_str dict_entity "id") (fun id =>
  if eq_str id indicator
  then pbind (getitem_str dict_entity field) (fun note => Ok (Some note))
  else Ok None).

Fixpoint somes {A} (xs : list (option A)) : list A :=
  match xs with
  | [] => []
  | Some a :: rest => a :: somes rest
  | None :: rest => somes rest
  end.

(** The entities on which the test [dict_entity["id"] == indicator]
    holds. *)
Definition is_match (indicator : string) (dict_entity : json) : bool :=
  match getitem_str dict_entity "id" with
  | Ok id => eq_str id indicator
  | Raise _ => false
  end.

Definition selected (indicator : string) (entities : list json) : list json :=
  filter (is_match indicator) entities.

Definition has_key (k : string) (v : json) : bool :=
  match getitem_str v k with
  | Ok _ => true
  | Raise _ => false
  end.

Definition has_keys (ks : list string) (v : json) : bool :=
  forallb (fun k => has_key k v) ks.

(** The value under [k], for entries known to hold it. *)
Definition field (k : string) (v : json) : json :=
  match getitem_str v k with
  | Ok x => x
  | Raise _ => JNull
  end.


(** ** The catalog fetcher of the design, over the cells *)

(** Modelled from the spec: the response-schema tag.  The notebooks carry
    no such tag; they have one cell for each shape, and the tag picks which
    cell's reading applies. *)
Inductive schema : Type :=
| FlatArray
| NestedVariable.

(** The records a cell reads out of a decoded body: the indicator loop for
    [FlatArray], the location loop for [NestedVariable]. *)
Definition extractRecords (envelope : json) (s : schema)
  : PyResult (list (json * json)) :=
  match s with
  | FlatArray =>
      pbind (getitem_int envelope 1) (fun items =>
      pbind (py_iter items) (fun xs =>
      outcome (collect flat_record xs)))
  | NestedVariable =>
      pbind (variable_of envelope) (fun locations =>
      pbind (py_len locations) (fun listLen =>
      outcome (collect (row_at locations) (seq 0 listLen))))
  end.

(** The entry lists a loop runs through without raising: a list of dicts
    holding both keys, or an empty dict or string (no iteration at all). *)
Definition entries_ok (k1 k2 : string) (items : json) : bool :=
  match items with
  | JArr entries => forallb (has_keys [k1; k2]) entries
  | JObj [] => true
  | JStr EmptyString => true
  | _ => false
  end.

Definition flat_shaped (envelope : json) : bool :=
  match envelope with
  | JArr (_ :: items :: _) => entries_ok "id" "name" items
  | _ => false
  end.

Definition nested_shaped (envelope : json) : bool :=
  match envelope with
  | JObj top =>
      match assoc "source" top with
      | Some (JArr (JObj src0 :: _)) =>
          match assoc "concept" src0 with
          | Some (JArr (JObj concept0 :: _)) =>
              match assoc "variable" concept0 with
              | Some items => entries_ok "id" "value" items
              | None => false
              end
          | _ => false
          end
      | _ => false
      end
  | _ => false
  end.

Definition shaped (s : schema) (envelope : json) : bool :=
  match s with
  | FlatArray => flat_shaped envelope
  | NestedVariable => nested_shaped envelope
  end.

(** The design's wording of the lookup, to compare the definition cell
    with: [lookup] is a linear scan that stops at the first record whose
    code equals the one asked for, [findMetadata] is [lookup] followed by
    the read of one field. *)
Inductive found (A : Type) : Type :=
| Found (a : A)
| NotFound.
Arguments Found {A} a.
Arguments NotFound {A}.

Fixpoint lookup_spec (result : list json) (code : string) : found json :=
  match result with
  | [] => NotFound
  | r :: rest => if is_match code r then Found r else lookup_spec rest code
  end.

Definition findMetadata_spec (result : list json) (code fld : string)
  : found json :=
  match lookup_spec result code with
  | Found r => Found (field fld r)
  | NotFound => NotFound
  end.

(** What was printed by [print(v)] calls, oldest first. *)
Definition printed_of (x : found json) : list shown :=
  match x with
  | Found v => [ShowVal v]
  | NotFound => []
  end.

(** *** Vocabulary for the statements about [clean_region] *)

(** [s] without its occurrences of the character [c]. *)
Fixpoint drop_char (c : ascii) (s : string) : string :=
  match s with
  | EmptyString => EmptyString
  | String a rest =>
      if Ascii.eqb a c then drop_char c rest else String a (drop_char c rest)
  end.

(** [pat] occurs in [s], at some position. *)
Fixpoint occurs (pat s : string) : bool :=
  String.prefix pat s ||
  match s with
  | EmptyString => false
  | String _ rest => occurs pat rest
  end.

(** No occurrence of [pat] in [a ++ rest] starts inside [a]. *)
Fixpoint starts_after (pat a rest : string) : bool :=
  match a with
  | EmptyString => true
  | String _ a' => negb (String.prefix pat (a ++ rest)) && starts_after pat a' rest
  end.

Definition excluding : string := "excluding high income".

(** *** The kernel after a loop *)

(** The assignments of the indicator loop, one per tuple. *)
Definition bind_tuples (ts : list (json * json)) (k : Kernel) : Kernel :=
  fold_left (fun k' t => set_IDSindicators t k') ts k.

(** The [print] calls of the definition loop. *)
Definition print_notes (notes : list (option json)) (k : Kernel) : Kernel :=
  fold_left (fun k' o => match o with
                         | Some v => write_stdout (ShowVal v) k'
                         | None => k'
                         end) notes k.


(** The record read from a flat entry and from a nested entry known to hold
    the keys. *)
Definition flat_pair (e : json) : json * json := (field "id" e, field "name" e).

Definition nested_pair (e : json) : json * json := (field "id" e, field "value" e).

(** The name key a schema reads, and where its entries sit. *)
Definition name_key (s : schema) : string :=
  match s with
  | FlatArray => "name"
  | NestedVariable => "value"
  end.

Definition entries_of (envelope : json) (s : schema) : PyResult json :=
  match s with
  | FlatArray => getitem_int envelope 1
  | NestedVariable => variable_of envelope
  end.

Definition record_of (s : schema) (e : json) : json * json :=
  (field "id" e, field (name_key s) e).

(** An exception that names a missing field. *)
Definition names_missing_field {A} (r : PyResult A) : Prop :=
  exists f : string, r = Raise (KeyError (KStr f)).

(** An indicator entity with the two fields the definition lookup reads. *)
Definition indicator_entity (r : string * string) : json :=
  JObj [ ("id", JStr (fst r)); ("sourceNote", JStr (snd r)) ].

(** The request of the guide followed by its definition lookup. *)
Definition fetch_then_define (srv : Server) (indicator fld : string) : Cell unit :=
  (fetch_indicators srv (indicators_url (Some 500)) ;;;
   definition_cell indicator fld)%cell.





(** The debtor cell asked with any query. *)
Definition fetch_debtors (srv : Server) (q : Query) : Cell unit :=
  locations_cell srv q set_dlocationsList.




(** ** Part 1, section 2: the source cell *)

(** [http://api.worldbank.org/v2/sources?per_page=100&format=json]. *)
Definition sources_url : Query := mkQuery "sources" (Some 100) None.

Definition IDS_name : string := "International Debt Statistics".

Definition source_id_sentence : string :=
  "The source ID for International Debt Statistics is ".

(** [s + v] for a string [s]: concatenation with another string, a
    [TypeError] with anything else. *)
Definition str_add (s : string) (v : json) : PyResult json :=
  match v with
  | JStr t => Ok (JStr (s ++ t))
  | _ => Raise TypeError
  end.

(** [[
sources = requests.get(url)
sourcesJSON = sources.json()
for i in sourcesJSON[1]:
    if i["name"] == "International Debt Statistics":
        print("The source ID for International Debt Statistics is " + i["id"])
    else:
        pass
]]
    No later cell reads [sourcesJSON]; it is let-bound. *)
Definition sources_cell (srv : Server) : Cell unit :=
  sourcesJSON <- requests_get_json srv sources_url ;;
  items <- eval (getitem_int sourcesJSON 1) ;;
  xs <- eval (py_iter items) ;;
  for_each xs (fun i =>
    name <- eval (getitem_str i "name") ;;
    if eq_str name IDS_name
    then id <- eval (getitem_str i "id") ;;
         line <- eval (str_add source_id_sentence id) ;;
         print (ShowVal line)
    else ret tt) ;;;
  ret tt.

(** One turn of the source loop: the line it prints, if the test holds. *)
Definition source_line (i : json) : PyResult (option json) :=
  pbind (getitem_str i "name") (fun name =>
  if eq_str name IDS_name
  then pbind (getitem_str i "id") (fun id =>
       pbind (str_add source_id_sentence id) (fun line => Ok (Some line)))
  else Ok None).





(** ** What the reading cells print, as a function of [indicatorsJSON] *)

(** The entities the definition loop runs over, when the body allows the
    loop to start. *)
Definition entities_of (bound : option json) : PyResult (list json) :=
  match bound with
  | None => Raise (NameError "indicatorsJSON")
  | Some env => pbind (getitem_int env 1) py_iter
  end.


(** Two kernels that differ at most in what was printed. *)
Definition same_globals (k k' : Kernel) : Prop :=
  sent k' = sent k /\
  indicatorsJSON k' = indicatorsJSON k /\
  IDSindicators k' = IDSindicators k /\
  df k' = df k /\
  dlocationsList k' = dlocationsList k /\
  clocationsList k' = clocationsList k.

(** A service that cannot be reached. *)
Definition unreachable : Server := fun _ => Raise ConnectionError.


From Stdlib Require Import Sorted.

(** [col == s] holds at an entry: the entry is that string, not [NA]. *)
Definition R_equal (s : string) (entry : option string) : bool :=
  match entry with
  | Some t => String.eqb t s
  | None => false
  end.

(** [col[1:n]], the view the R guide prints of a list ([1:25]) or of the
    sources ([1:10]), for one column. *)
Definition R_first_rows (col : R.character) (n : nat) : R.character :=
  R.subscript col (seq 1 n).

(** * Properties *)

(** ** Running the loops *)

Section ForEach.

Context {A B C : Type}.
Variable f : A -> PyResult B.
Variable g : B -> C.
Variable upd : B -> Kernel -> Kernel.
Variable body : A -> Cell C.
Variable Inv : Kernel -> Prop.

Hypothesis body_run : forall x k, Inv k ->
  body x k = match f x with
             | Ok b => (upd b k, Ok (g b))
             | Raise e => (k, Raise e)
             end.
Hypothesis upd_inv : forall b k, Inv k -> Inv (upd b k).

Lemma for_each_collect : forall xs k, Inv k ->
  for_each xs body k =
    (fold_left (fun k' b => upd b k') (fst (collect f xs)) k,
     match snd (collect f xs) with
     | None => Ok (map g (fst (collect f xs)))
     | Some e => Raise e
     end).
Proof.
  induction xs as [|x xs IH]; intros k Hk; simpl.
  - reflexivity.
  - unfold bind at 1. rewrite (body_run x k Hk).
    destruct (f x) as [b|e]; simpl; [|reflexivity].
    unfold bind at 1. rewrite (IH _ (upd_inv b k Hk)).
    destruct (collect f xs) as [bs [e|]]; reflexivity.
Qed.

End ForEach.

Lemma collect_app {A B} (f : A -> PyResult B) (xs ys : list A) :
  collect f (xs ++ ys) =
    match snd (collect f xs) with
    | None => (fst (collect f xs) ++ fst (collect f ys), snd (collect f ys))
    | Some e => collect f xs
    end.
Proof.
  induction xs as [|x xs IH]; simpl.
  - destruct (collect f ys); reflexivity.
  - destruct (f x) as [b|e]; simpl; [|reflexivity].
    rewrite IH. destruct (collect f xs) as [bs [e|]]; simpl; [reflexivity|].
    destruct (collect f ys); reflexivity.
Qed.

Lemma collect_all_ok {A B} (f : A -> PyResult B) (h : A -> B) (xs : list A) :
  Forall (fun x => f x = Ok (h x)) xs ->
  collect f xs = (map h xs, None).
Proof.
  induction 1 as [|x xs Hx _ IH]; simpl; [reflexivity|].
  rewrite Hx, IH. reflexivity.
Qed.


Lemma collect_ext {A B} (f f' : A -> PyResult B) (xs : list A) :
  Forall (fun x => f x = f' x) xs -> collect f xs = collect f' xs.
Proof.
  induction 1 as [|x xs Hx _ IH]; simpl; [reflexivity|].
  rewrite Hx, IH. reflexivity.
Qed.

Lemma collect_map {A A' B} (f : A' -> PyResult B) (m : A -> A') (xs : list A) :
  collect f (map m xs) = collect (fun x => f (m x)) xs.
Proof.
  induction xs as [|x xs IH]; simpl; [reflexivity|].
  rewrite IH. reflexivity.
Qed.

(** Running through a list by index visits its items. *)
Lemma collect_by_index (f : json -> PyResult (json * json)) :
  forall (entries pre : list json),
    collect (fun i => pbind (getitem_int (JArr (pre ++ entries)) i) f)
            (seq (List.length pre) (List.length entries))
    = collect f entries.
Proof.
  induction entries as [|x entries IH]; intros pre; simpl; [reflexivity|].
  rewrite nth_error_app2, Nat.sub_diag by lia. simpl.
  destruct (f x) as [b|e]; [|reflexivity].
  specialize (IH (pre ++ [x])).
  rewrite <- app_assoc in IH. simpl in IH.
  rewrite length_app in IH. simpl in IH.
  rewrite Nat.add_1_r in IH. rewrite IH. reflexivity.
Qed.

Lemma collect_row_at (entries : list json) :
  collect (row_at (JArr entries)) (seq 0 (List.length entries))
  = collect nested_record entries.
Proof. exact (collect_by_index nested_record entries []). Qed.

(** ** Running the cells *)

Lemma outcome_map_id {B} (p : list B * option PyExc) :
  match snd p with
  | None => Ok (map (fun b => b) (fst p))
  | Some e => Raise e
  end = outcome p.
Proof. unfold outcome. rewrite map_id. reflexivity. Qed.

Lemma fetch_indicators_run (srv : Server) (q : Query) (k : Kernel) :
  fetch_indicators srv q k =
    match srv q with
    | Ok body => (set_indicatorsJSON body (log_request q k), Ok tt)
    | Raise e => (log_request q k, Raise e)
    end.
Proof.
  unfold fetch_indicators, bind, requests_get_json, modify.
  destruct (srv q); reflexivity.
Qed.

Lemma indicators_loop_run (k : Kernel) (env : json) :
  indicatorsJSON k = Some env ->
  indicators_loop k =
    match getitem_int env 1 with
    | Raise e => (k, Raise e)
    | Ok items =>
        match py_iter items with
        | Raise e => (k, Raise e)
        | Ok xs => (bind_tuples (fst (collect flat_record xs)) k,
                    outcome (collect flat_record xs))
        end
    end.
Proof.
  intros Henv. unfold indicators_loop, bind at 1, read_global. rewrite Henv.
  unfold bind at 1, eval. destruct (getitem_int env 1) as [items|e]; [|reflexivity].
  unfold bind at 1. destruct (py_iter items) as [xs|e]; [|reflexivity].
  rewrite (for_each_collect flat_record (fun t => t)
             (fun t k' => set_IDSindicators t k') _ (fun _ => True)); auto.
  - rewrite outcome_map_id. reflexivity.
  - intros x k' _. unfold bind, flat_record, pbind, modify, ret.
    destruct (getitem_str x "id"); [|reflexivity].
    destruct (getitem_str x "name"); reflexivity.
Qed.

Lemma indicators_loop_result (k : Kernel) (env : json) :
  indicatorsJSON k = Some env ->
  snd (indicators_loop k) = extractRecords env FlatArray.
Proof.
  intros Henv. rewrite (indicators_loop_run k env Henv). simpl.
  destruct (getitem_int env 1) as [items|e]; [|reflexivity]. simpl.
  destruct (py_iter items); reflexivity.
Qed.

Lemma indicators_cell_run (srv : Server) (q : Query) (k : Kernel) :
  indicators_cell srv q k =
    match srv q with
    | Ok body => indicators_loop (set_indicatorsJSON body (log_request q k))
    | Raise e => (log_request q k, Raise e)
    end.
Proof.
  unfold indicators_cell, bind at 1. rewrite fetch_indicators_run.
  destruct (srv q); reflexivity.
Qed.

Lemma bind_tuples_frame (ts : list (json * json)) (k : Kernel) :
  sent (bind_tuples ts k) = sent k /\
  stdout (bind_tuples ts k) = stdout k /\
  indicatorsJSON (bind_tuples ts k) = indicatorsJSON k /\
  df (bind_tuples ts k) = df k /\
  dlocationsList (bind_tuples ts k) = dlocationsList k /\
  clocationsList (bind_tuples ts k) = clocationsList k.
Proof.
  revert k; induction ts as [|t ts IH]; intros k; simpl.
  - repeat split.
  - destruct (IH (set_IDSindicators t k)) as (H1 & H2 & H3 & H4 & H5 & H6).
    unfold bind_tuples in *. rewrite H1, H2, H3, H4, H5, H6. repeat split.
Qed.

Lemma last_cons {A} (a d : A) (l : list A) : last (a :: l) d = last l a.
Proof.
  revert a d; induction l as [|b l IH]; intros a d; [reflexivity|].
  change (last (a :: b :: l) d) with (last (b :: l) d).
  rewrite (IH b d), (IH b a). reflexivity.
Qed.

(** After the loop [IDSindicators] holds the last tuple, or what it held
    before when the loop did not run. *)
Lemma bind_tuples_last (ts : list (json * json)) (k : Kernel) :
  IDSindicators (bind_tuples ts k) = last (map Some ts) (IDSindicators k).
Proof.
  revert k; induction ts as [|t ts IH]; intros k; [reflexivity|].
  change (bind_tuples (t :: ts) k) with (bind_tuples ts (set_IDSindicators t k)).
  rewrite IH. simpl map. rewrite last_cons. reflexivity.
Qed.

Lemma print_notes_frame (notes : list (option json)) (k : Kernel) :
  sent (print_notes notes k) = sent k /\
  stdout (print_notes notes k) = stdout k ++ map ShowVal (somes notes) /\
  indicatorsJSON (print_notes notes k) = indicatorsJSON k /\
  IDSindicators (print_notes notes k) = IDSindicators k /\
  df (print_notes notes k) = df k /\
  dlocationsList (print_notes notes k) = dlocationsList k /\
  clocationsList (print_notes notes k) = clocationsList k.
Proof.
  revert k; induction notes as [|o notes IH]; intros k; simpl.
  - rewrite app_nil_r. repeat split.
  - destruct o as [v|].
    + destruct (IH (write_stdout (ShowVal v) k)) as (H1 & H2 & H3 & H4 & H5 & H6 & H7).
      unfold print_notes in *. rewrite H1, H2, H3, H4, H5, H6, H7. simpl.
      rewrite <- app_assoc. repeat split.
    + apply IH.
Qed.

Lemma definition_cell_run (indicator fld : string) (k : Kernel) (env : json) :
  indicatorsJSON k = Some env ->
  definition_cell indicator fld k =
    match getitem_int env 1 with
    | Raise e => (k, Raise e)
    | Ok items =>
        match py_iter items with
        | Raise e => (k, Raise e)
        | Ok xs =>
            (print_notes (fst (collect (note_of indicator fld) xs)) k,
             match snd (collect (note_of indicator fld) xs) with
             | None => Ok tt
             | Some e => Raise e
             end)
        end
    end.
Proof.
  intros Henv. unfold definition_cell, bind at 1, read_global. rewrite Henv.
  unfold bind at 1, eval. destruct (getitem_int env 1) as [items|e]; [|reflexivity].
  unfold bind at 1. destruct (py_iter items) as [xs|e]; [|reflexivity].
  unfold bind at 1.
  rewrite (for_each_collect (note_of indicator fld) (fun _ => tt)
             (fun o k' => match o with
                          | Some v => write_stdout (ShowVal v) k'
                          | None => k'
                          end) _ (fun _ => True)); auto.
  - destruct (snd (collect (note_of indicator fld) xs)); reflexivity.
  - intros x k' _. unfold bind, note_of, pbind, print, modify, ret.
    destruct (getitem_str x "id") as [id|e]; [|reflexivity].
    destruct (eq_str id indicator); [|reflexivity].
    destruct (getitem_str x fld); reflexivity.
Qed.

Lemma append_rows (rs acc : frame) (k : Kernel) :
  fold_left (fun k' r =>
               set_df (match df k' with Some rows => rows | None => [] end ++ [r]) k')
            rs (set_df acc k)
  = set_df (acc ++ rs) k.
Proof.
  revert acc; induction rs as [|r rs IH]; intros acc; simpl.
  - rewrite app_nil_r. reflexivity.
  - change (set_df (acc ++ [r]) (set_df acc k)) with (set_df (acc ++ [r]) k).
    rewrite IH, <- app_assoc. reflexivity.
Qed.

Lemma locations_cell_run (srv : Server) (q : Query)
    (assign : frame -> Kernel -> Kernel) (k : Kernel) :
  locations_cell srv q assign k =
    match srv q with
    | Raise e => (log_request q k, Raise e)
    | Ok body =>
        match variable_of body with
        | Raise e => (log_request q k, Raise e)
        | Ok locations =>
            match py_len locations with
            | Raise e => (log_request q k, Raise e)
            | Ok listLen =>
                let p := collect (row_at locations) (seq 0 listLen) in
                match snd p with
                | Some e => (set_df (fst p) (log_request q k), Raise e)
                | None =>
                    (write_stdout (ShowFrame (firstn 10 (fst p)))
                       (assign (fst p) (set_df (fst p) (log_request q k))),
                     Ok tt)
                end
            end
        end
    end.
Proof.
  unfold locations_cell, bind at 1, requests_get_json.
  destruct (srv q) as [body|e]; [|reflexivity].
  unfold variable_of, pbind.
  unfold bind at 1, eval. destruct (getitem_str body "source") as [src|e]; [|reflexivity].
  unfold bind at 1. destruct (getitem_int src 0) as [src0|e]; [|reflexivity].
  unfold bind at 1. destruct (getitem_str src0 "concept") as [concept|e]; [|reflexivity].
  unfold bind at 1. destruct (getitem_int concept 0) as [concept0|e]; [|reflexivity].
  unfold bind at 1. destruct (getitem_str concept0 "variable") as [locations|e]; [|reflexivity].
  unfold bind at 1. destruct (py_len locations) as [listLen|e]; [|reflexivity].
  unfold bind at 1, modify at 1.
  unfold bind at 1.
  rewrite (for_each_collect (row_at locations) (fun _ => tt)
             (fun r k' => set_df (match df k' with Some rows => rows | None => [] end ++ [r]) k')
             _ (fun k' => df k' <> None)).
  - rewrite append_rows. simpl app.
    destruct (snd (collect (row_at locations) (seq 0 listLen))) as [e|]; [reflexivity|].
    reflexivity.
  - intros i k' Hdf. unfold bind, row_at, nested_record, pbind, eval, read_global, modify.
    destruct (getitem_int locations i) as [entry|e]; [|reflexivity].
    destruct (getitem_str entry "id") as [code|e]; [|reflexivity].
    destruct (getitem_str entry "value") as [name|e]; [|reflexivity].
    destruct (df k') as [rows|]; [reflexivity|congruence].
  - intros r k' _. simpl. discriminate.
  - simpl. discriminate.
Qed.

(** ** Entries that hold their keys *)

Lemma has_key_field (key : string) (v : json) :
  has_key key v = true -> getitem_str v key = Ok (field key v).
Proof.
  unfold has_key, field. destruct (getitem_str v key); [reflexivity|discriminate].
Qed.

Lemma flat_record_ok (e : json) :
  has_keys ["id"; "name"] e = true -> flat_record e = Ok (flat_pair e).
Proof.
  unfold has_keys. cbn [forallb]. rewrite andb_true_r.
  intros H. apply andb_true_iff in H. destruct H as [H1 H2].
  unfold flat_record, flat_pair.
  rewrite (has_key_field _ _ H1), (has_key_field _ _ H2). reflexivity.
Qed.


Lemma collect_flat_ok (entries : list json) :
  forallb (has_keys ["id"; "name"]) entries = true ->
  collect flat_record entries = (map flat_pair entries, None).
Proof.
  intros H. apply collect_all_ok. rewrite forallb_forall in H.
  apply Forall_forall. intros e He. apply flat_record_ok, H, He.
Qed.


Lemma forallb_firstn {A} (p : A -> bool) (n : nat) (xs : list A) :
  forallb p xs = true -> forallb p (firstn n xs) = true.
Proof.
  revert n; induction xs as [|x xs IH]; intros [|n] H; try reflexivity.
  simpl in *. apply andb_true_iff in H. destruct H as [H1 H2].
  rewrite H1, (IH n H2). reflexivity.
Qed.

(** ** The indicator cells against a flat catalog *)

Lemma indicators_cell_flat (catalog : list json) (q : Query) (k : Kernel) :
  forallb (has_keys ["id"; "name"]) (firstn (page_size q) catalog) = true ->
  indicators_cell (flat_server catalog) q k =
    (bind_tuples (map flat_pair (firstn (page_size q) catalog))
       (set_indicatorsJSON (flat_body catalog (page_size q)) (log_request q k)),
     Ok (map flat_pair (firstn (page_size q) catalog))).
Proof.
  intros Hwf. rewrite indicators_cell_run. unfold flat_server.
  rewrite (indicators_loop_run _ (flat_body catalog (page_size q))) by reflexivity.
  cbn [flat_body getitem_int nth_error py_iter].
  rewrite (collect_flat_ok _ Hwf). reflexivity.
Qed.

Lemma total_cell_run (k : Kernel) (env : json) :
  indicatorsJSON k = Some env ->
  total_cell k =
    match pbind (getitem_int env 0) (fun paging => getitem_str paging "total") with
    | Ok total => (write_stdout (ShowCount total) k, Ok total)
    | Raise e => (k, Raise e)
    end.
Proof.
  intros Henv. unfold total_cell, bind at 1, read_global. rewrite Henv.
  unfold bind, eval, pbind, print, modify, ret.
  destruct (getitem_int env 0) as [paging|e]; [|reflexivity].
  destruct (getitem_str paging "total"); reflexivity.
Qed.

Lemma total_of_flat_body (catalog : list json) (n : nat) :
  pbind (getitem_int (flat_body catalog n) 0)
        (fun paging => getitem_str paging "total")
  = Ok (JNum (Z.of_nat (List.length catalog))).
Proof. reflexivity. Qed.

(** C1. Against a catalog of more than [n] well-formed entries, the
    indicator cell asked for [per_page = n] sends one request and reads
    exactly [n] records, the first [n] of the catalog; it completes without
    an exception and prints nothing, and what it hands back is what a
    complete fetch of an [n]-entry catalog hands back; the paging header it
    stored, and the guide's total query (request without [per_page], then
    [indicatorsJSON[0]["total"]]), give the full number of entries. *)
Theorem fetch_truncates_silently
    (catalog : list json) (n : nat) (k : Kernel) :
  0 < n ->
  n < List.length catalog ->
  forallb (has_keys ["id"; "name"]) catalog = true ->
  let q := indicators_url (Some n) in
  let run := indicators_cell (flat_server catalog) q k in
  snd run = Ok (map flat_pair (firstn n catalog)) /\
  (exists recs, snd run = Ok recs /\ List.length recs = n) /\
  sent (fst run) = sent k ++ [q] /\
  stdout (fst run) = stdout k /\
  snd run = snd (indicators_cell (flat_server (firstn n catalog)) q k) /\
  snd (total_cell (fst run)) = Ok (JNum (Z.of_nat (List.length catalog))) /\
  snd ((fetch_indicators (flat_server catalog) (indicators_url None) ;;;
        total_cell) k)
  = Ok (JNum (Z.of_nat (List.length catalog))).
Proof.
  intros Hpos Hlt Hwf q run.
  assert (Hrun : run =
    (bind_tuples (map flat_pair (firstn n catalog))
       (set_indicatorsJSON (flat_body catalog n) (log_request q k)),
     Ok (map flat_pair (firstn n catalog)))).
  { apply (indicators_cell_flat catalog q k), forallb_firstn, Hwf. }
  rewrite Hrun. cbn [fst snd].
  destruct (bind_tuples_frame (map flat_pair (firstn n catalog))
              (set_indicatorsJSON (flat_body catalog n) (log_request q k)))
    as (Hsent & Hout & Hjson & _).
  split; [reflexivity|]. split.
  { eexists; split; [reflexivity|]. rewrite length_map, length_firstn. lia. }
  split; [rewrite Hsent; reflexivity|].
  split; [rewrite Hout; reflexivity|].
  split.
  { rewrite (indicators_cell_flat (firstn n catalog) q k).
    - cbn [snd page_size q indicators_url per_page].
      rewrite firstn_firstn, Nat.min_id. reflexivity.
    - apply forallb_firstn, forallb_firstn, Hwf. }
  split.
  { rewrite (total_cell_run _ (flat_body catalog n)) by (rewrite Hjson; reflexivity).
    rewrite total_of_flat_body. reflexivity. }
  unfold bind at 1. rewrite fetch_indicators_run. unfold flat_server.
  rewrite (total_cell_run _ (flat_body catalog (page_size (indicators_url None))))
    by reflexivity.
  rewrite total_of_flat_body. reflexivity.
Qed.

(** The scenario of the design: 569 indicators, [per_page = 50]. *)
Lemma fetch_truncates_569_50 :
  let catalog := numbered_catalog 569 in
  let run := indicators_cell (flat_server catalog) (indicators_url (Some 50))
               fresh_kernel in
  (exists recs, snd run = Ok recs /\ List.length recs = 50) /\
  sent (fst run) = [indicators_url (Some 50)] /\
  stdout (fst run) = [] /\
  snd (total_cell (fst run)) = Ok (JNum 569).
Proof.
  assert (H50 : 0 < 50) by (apply Nat.lt_0_succ).
  assert (Hlen : 50 < List.length (numbered_catalog 569))
    by (vm_compute; apply Nat.leb_le; reflexivity).
  assert (Hwf : forallb (has_keys ["id"; "name"]) (numbered_catalog 569) = true)
    by (vm_compute; reflexivity).
  destruct (fetch_truncates_silently (numbered_catalog 569) 50 fresh_kernel
              H50 Hlen Hwf) as (_ & Hn & Hs & Ho & _ & Ht & _).
  repeat split; assumption.
Defined.

(** ** Reading records out of a body *)

Lemma collect_none_iff {A B} (f : A -> PyResult B) (p : A -> bool) :
  (forall x, (exists b, f x = Ok b) <-> p x = true) ->
  forall xs, snd (collect f xs) = None <-> forallb p xs = true.
Proof.
  intros Hp. induction xs as [|x xs IH]; simpl; [tauto|].
  destruct (f x) as [b|e] eqn:E.
  - destruct (collect f xs) as [bs oe]. simpl in *.
    rewrite IH. assert (Hx : p x = true) by (apply Hp; eauto).
    rewrite Hx. tauto.
  - simpl. split; [discriminate|]. intros H. apply andb_true_iff in H.
    destruct H as [H _]. apply Hp in H. destruct H as [b Hb]. congruence.
Qed.

Lemma record_iff_keys (key2 : string) (e : json) :
  (exists b, pbind (getitem_str e "id") (fun a =>
             pbind (getitem_str e key2) (fun n => Ok (a, n))) = Ok b)
  <-> has_keys ["id"; key2] e = true.
Proof.
  unfold has_keys, has_key. cbn [forallb]. rewrite andb_true_r.
  destruct (getitem_str e "id") as [a|x]; simpl.
  - destruct (getitem_str e key2) as [n|y]; simpl.
    + split; [reflexivity|intros _; eexists; reflexivity].
    + split; [intros [b Hb]|]; discriminate.
  - split; [intros [b Hb]|]; discriminate.
Qed.

Lemma outcome_ok_iff {B} (p : list B * option PyExc) :
  (exists bs, outcome p = Ok bs) <-> snd p = None.
Proof.
  unfold outcome. destruct (snd p); split; eauto; try discriminate.
  intros [bs H]; discriminate.
Qed.

(** The loop over [for x in items] completes exactly on the entry lists
    [entries_ok] accepts. *)
Lemma iterate_ok_iff (key2 : string) (items : json) :
  (exists bs,
     pbind (py_iter items) (fun xs =>
       outcome (collect (fun e => pbind (getitem_str e "id") (fun a =>
                                   pbind (getitem_str e key2) (fun n => Ok (a, n))))
                        xs)) = Ok bs)
  <-> entries_ok "id" key2 items = true.
Proof.
  destruct items as [| | |s|entries|fields]; simpl;
    try (split; [intros [bs H]|]; discriminate).
  - destruct s as [|c s]; simpl.
    + split; [reflexivity|intros _; eexists; reflexivity].
    + split; [intros [bs H]|]; discriminate.
  - rewrite outcome_ok_iff. apply collect_none_iff. apply record_iff_keys.
  - destruct fields as [|[key v] fields]; simpl.
    + split; [reflexivity|intros _; eexists; reflexivity].
    + split; [intros [bs H]|]; discriminate.
Qed.

(** The loop over [range(0, len(locations))] completes exactly on the same
    entry lists. *)
Lemma index_ok_iff (locations : json) :
  (exists bs,
     pbind (py_len locations) (fun listLen =>
       outcome (collect (row_at locations) (seq 0 listLen))) = Ok bs)
  <-> entries_ok "id" "value" locations = true.
Proof.
  destruct locations as [| | |s|entries|fields]; simpl;
    try (split; [intros [bs H]|]; discriminate).
  - destruct s as [|c s]; simpl.
    + split; [reflexivity|intros _; eexists; reflexivity].
    + split; [intros [bs H]|]; discriminate.
  - rewrite collect_row_at, outcome_ok_iff.
    apply collect_none_iff. apply record_iff_keys.
  - destruct fields as [|[key v] fields]; simpl.
    + split; [reflexivity|intros _; eexists; reflexivity].
    + split; [intros [bs H]|]; discriminate.
Qed.

Lemma extract_flat_ok_iff (envelope : json) :
  (exists recs, extractRecords envelope FlatArray = Ok recs)
  <-> flat_shaped envelope = true.
Proof.
  unfold extractRecords, flat_shaped.
  destruct envelope as [| | |s|items|fields]; simpl;
    try (split; [intros [bs H]|]; discriminate).
  - destruct (String.get 1 s); simpl; split; try discriminate;
      intros [bs H]; discriminate.
  - destruct items as [|meta [|page rest]]; simpl;
      try (split; [intros [bs H]|]; discriminate).
    apply (iterate_ok_iff "name").
Qed.

Lemma variable_of_inv (envelope locations : json) :
  variable_of envelope = Ok locations ->
  exists top src0 rest1 concept0 rest2,
    envelope = JObj top /\
    assoc "source" top = Some (JArr (JObj src0 :: rest1)) /\
    assoc "concept" src0 = Some (JArr (JObj concept0 :: rest2)) /\
    assoc "variable" concept0 = Some locations.
Proof.
  unfold variable_of. intros H.
  destruct envelope as [| | | | |top]; try discriminate. cbn [getitem_str pbind] in H.
  destruct (assoc "source" top) as [src|] eqn:E1; [|discriminate].
  cbn [pbind] in H.
  destruct src as [| | |s|[|src0 rest1]|]; try discriminate.
  { cbn [getitem_int] in H. destruct (String.get 0 s); discriminate. }
  cbn [getitem_int nth_error pbind] in H.
  destruct src0 as [| | | | |src0]; try discriminate. cbn [getitem_str pbind] in H.
  destruct (assoc "concept" src0) as [concept|] eqn:E2; [|discriminate].
  cbn [pbind] in H.
  destruct concept as [| | |s|[|concept0 rest2]|]; try discriminate.
  { cbn [getitem_int] in H. destruct (String.get 0 s); discriminate. }
  cbn [getitem_int nth_error pbind] in H.
  destruct concept0 as [| | | | |concept0]; try discriminate. cbn [getitem_str] in H.
  destruct (assoc "variable" concept0) as [v|] eqn:E3; [|discriminate].
  inversion H; subst. do 5 eexists. repeat split; eassumption.
Qed.

Lemma extract_nested_ok_iff (envelope : json) :
  (exists recs, extractRecords envelope NestedVariable = Ok recs)
  <-> nested_shaped envelope = true.
Proof.
  unfold extractRecords. split.
  - intros [recs H].
    destruct (variable_of envelope) as [locations|e] eqn:E; [|discriminate].
    cbn [pbind] in H.
    destruct (variable_of_inv _ _ E) as (top & src0 & r1 & c0 & r2 & -> & E1 & E2 & E3).
    unfold nested_shaped. rewrite E1, E2, E3.
    apply index_ok_iff. eauto.
  - unfold nested_shaped. intros H.
    destruct envelope as [| | | | |top]; try discriminate.
    destruct (assoc "source" top) as [[| | | |[|[| | | | |src0] r1]|]|] eqn:E1;
      try discriminate.
    destruct (assoc "concept" src0) as [[| | | |[|[| | | | |c0] r2]|]|] eqn:E2;
      try discriminate.
    destruct (assoc "variable" c0) as [locations|] eqn:E3; [|discriminate].
    apply index_ok_iff in H.
    unfold variable_of. cbn [getitem_str pbind]. rewrite E1.
    cbn [getitem_int nth_error getitem_str pbind]. rewrite E2.
    cbn [getitem_int nth_error getitem_str pbind]. rewrite E3.
    exact H.
Qed.

(** Once the entries are a list, either reading is a loop over its items. *)
Lemma extract_list (envelope : json) (s : schema) (entries : list json) :
  entries_of envelope s = Ok (JArr entries) ->
  extractRecords envelope s =
    outcome (collect (fun e => pbind (getitem_str e "id") (fun a =>
                               pbind (getitem_str e (name_key s)) (fun n => Ok (a, n))))
                     entries).
Proof.
  destruct s; unfold entries_of, extractRecords; intros ->; cbn [pbind py_iter py_len].
  - reflexivity.
  - rewrite collect_row_at. reflexivity.
Qed.

Lemma extract_list_ok (envelope : json) (s : schema) (entries : list json) :
  entries_of envelope s = Ok (JArr entries) ->
  forallb (has_keys ["id"; name_key s]) entries = true ->
  extractRecords envelope s = Ok (map (record_of s) entries).
Proof.
  intros He Hwf. rewrite (extract_list _ _ _ He).
  rewrite (collect_all_ok _ (record_of s)); [reflexivity|].
  rewrite forallb_forall in Hwf. apply Forall_forall. intros e Hin.
  specialize (Hwf e Hin). unfold has_keys in Hwf. cbn [forallb] in Hwf.
  rewrite andb_true_r in Hwf. apply andb_true_iff in Hwf. destruct Hwf as [H1 H2].
  rewrite (has_key_field _ _ H1). cbn [pbind].
  rewrite (has_key_field _ _ H2). reflexivity.
Qed.

Lemma extract_list_missing (envelope : json) (s : schema)
    (pre post : list json) (fields : list (string * json)) (key : string) :
  entries_of envelope s = Ok (JArr (pre ++ JObj fields :: post)) ->
  forallb (has_keys ["id"; name_key s]) pre = true ->
  (key = "id" /\ assoc "id" fields = None) \/
  (key = name_key s /\ assoc "id" fields <> None /\ assoc key fields = None) ->
  extractRecords envelope s = Raise (KeyError (KStr key)).
Proof.
  intros He Hpre Hkey. rewrite (extract_list _ _ _ He).
  rewrite collect_app.
  rewrite (collect_all_ok _ (record_of s) pre).
  - cbn [snd fst collect getitem_str].
    destruct Hkey as [[-> Hid] | (-> & Hid & Hname)].
    + rewrite Hid. reflexivity.
    + destruct (assoc "id" fields) as [a|]; [|congruence].
      cbn [pbind]. rewrite Hname. reflexivity.
  - rewrite forallb_forall in Hpre. apply Forall_forall. intros e Hin.
    specialize (Hpre e Hin). unfold has_keys in Hpre. cbn [forallb] in Hpre.
    rewrite andb_true_r in Hpre. apply andb_true_iff in Hpre. destruct Hpre as [H1 H2].
    rewrite (has_key_field _ _ H1). cbn [pbind].
    rewrite (has_key_field _ _ H2). reflexivity.
Qed.

Lemma locations_cell_result (srv : Server) (q : Query)
    (assign : frame -> Kernel -> Kernel) (k : Kernel) (body : json) :
  srv q = Ok body ->
  snd (locations_cell srv q assign k) =
    match extractRecords body NestedVariable with
    | Ok _ => Ok tt
    | Raise e => Raise e
    end.
Proof.
  intros Hb. rewrite locations_cell_run, Hb. unfold extractRecords, outcome.
  destruct (variable_of body) as [locations|e]; [|reflexivity]. cbn [pbind].
  destruct (py_len locations) as [n|e]; [|reflexivity]. cbn [pbind]. cbv zeta.
  destruct (snd (collect (row_at locations) (seq 0 n))); reflexivity.
Qed.

(** A location cell that raises leaves its catalog variable as it was. *)
Lemma dlocations_cell_raise (srv : Server) (k : Kernel) (e : PyExc) :
  snd (dlocations_cell srv k) = Raise e ->
  dlocationsList (fst (dlocations_cell srv k)) = dlocationsList k.
Proof.
  unfold dlocations_cell. rewrite locations_cell_run.
  destruct (srv dlocations_url) as [body|x]; [|reflexivity].
  destruct (variable_of body) as [locations|x]; [|reflexivity].
  destruct (py_len locations) as [n|x]; [|reflexivity]. cbv zeta.
  destruct (snd (collect (row_at locations) (seq 0 n))); [reflexivity|discriminate].
Qed.

(** C2 (as stated, refuted). A flat body read under [NestedVariable] has
    the wrong shape, yet the exception raised is a [TypeError]: it names no
    missing field.  And a flat entry carrying [id] and [value] but no
    [name] is not read under [FlatArray]: the reading raises
    [KeyError "name"]. *)
Lemma cross_schema_names_no_field :
  let envelope := flat_body [DLXF] 50 in
  shaped NestedVariable envelope = false /\
  extractRecords envelope NestedVariable = Raise TypeError /\
  ~ names_missing_field (extractRecords envelope NestedVariable) /\
  extractRecords (flat_body [nested_entry "AFG" "Afghanistan"] 50) FlatArray
  = Raise (KeyError (KStr "name")).
Proof.
  repeat split.
  intros [f H]. discriminate H.
Qed.

(** C2 (amended). The two readings are those of the cells: under
    [FlatArray] the entries are the second element of the body and carry
    [id] and [name]; under [NestedVariable] they sit at
    [source[0].concept[0].variable] and carry [id] and [value].  A body of
    the wrong shape for the schema, or with an entry lacking a key, makes
    the reading raise an exception and yield no record sequence (the
    location cell then leaves [dlocationsList] as it was).  The exception
    is a [KeyError] naming the missing key when an entry lacks it; a flat
    body read as nested raises [TypeError], a nested body read as flat
    raises [KeyError 1], and neither names a field. *)
Theorem extractRecords_by_schema :
  (forall k envelope,
     indicatorsJSON k = Some envelope ->
     snd (indicators_loop k) = extractRecords envelope FlatArray) /\
  (forall srv q assign k body,
     srv q = Ok body ->
     snd (locations_cell srv q assign k) =
       match extractRecords body NestedVariable with
       | Ok _ => Ok tt
       | Raise e => Raise e
       end) /\
  (forall envelope s entries,
     entries_of envelope s = Ok (JArr entries) ->
     forallb (has_keys ["id"; name_key s]) entries = true ->
     extractRecords envelope s = Ok (map (record_of s) entries)) /\
  (forall envelope s,
     shaped s envelope = false ->
     exists e, extractRecords envelope s = Raise e) /\
  (forall envelope s recs,
     extractRecords envelope s = Ok recs -> shaped s envelope = true) /\
  (forall envelope s pre post fields key,
     entries_of envelope s = Ok (JArr (pre ++ JObj fields :: post)) ->
     forallb (has_keys ["id"; name_key s]) pre = true ->
     (key = "id" /\ assoc "id" fields = None) \/
     (key = name_key s /\ assoc "id" fields <> None /\ assoc key fields = None) ->
     extractRecords envelope s = Raise (KeyError (KStr key))) /\
  (forall items, extractRecords (JArr items) NestedVariable = Raise TypeError) /\
  (forall fields, extractRecords (JObj fields) FlatArray = Raise (KeyError (KInt 1))) /\
  (forall srv k e,
     snd (dlocations_cell srv k) = Raise e ->
     dlocationsList (fst (dlocations_cell srv k)) = dlocationsList k).
Proof.
  assert (Hok : forall envelope s,
            (exists recs, extractRecords envelope s = Ok recs)
            <-> shaped s envelope = true).
  { intros envelope [|]; [apply extract_flat_ok_iff|apply extract_nested_ok_iff]. }
  split; [exact indicators_loop_result|].
  split; [exact locations_cell_result|].
  split; [exact extract_list_ok|].
  split.
  { intros envelope s Hs.
    destruct (extractRecords envelope s) as [recs|e] eqn:E; [|eauto].
    assert (H : shaped s envelope = true) by (apply Hok; eauto). congruence. }
  split; [intros envelope s recs H; apply Hok; eauto|].
  split; [exact extract_list_missing|].
  split; [reflexivity|].
  split; [reflexivity|].
  exact dlocations_cell_raise.
Qed.

(** The amended statement at work: a debtor list whose eleventh entry has
    no [value]. *)
Lemma extractRecords_missing_value :
  extractRecords
    (nested_body (debtor_head ++ [JObj [("id", JStr "XKX")]]) 300)
    NestedVariable
  = Raise (KeyError (KStr "value")).
Proof.
  destruct extractRecords_by_schema as (_ & _ & _ & _ & _ & H & _).
  apply (H _ NestedVariable debtor_head [] [("id", JStr "XKX")] "value").
  - reflexivity.
  - reflexivity.
  - right. repeat split. discriminate.
Defined.

(** ** The definition lookup *)

Lemma is_match_iff (indicator : string) (e : json) :
  is_match indicator e = true <-> getitem_str e "id" = Ok (JStr indicator).
Proof.
  unfold is_match. destruct (getitem_str e "id") as [id|x].
  - destruct id as [| | |s| |]; simpl; try (split; [discriminate|intros H; inversion H]).
    + rewrite String.eqb_eq. split; [intros ->; reflexivity|intros H; inversion H; reflexivity].
  - split; discriminate.
Qed.

Lemma note_of_ok (indicator fld : string) (e : json) :
  has_key "id" e = true ->
  (is_match indicator e = true -> has_key fld e = true) ->
  note_of indicator fld e
  = Ok (if is_match indicator e then Some (field fld e) else None).
Proof.
  intros Hid Hfld. unfold note_of, is_match in *.
  rewrite (has_key_field _ _ Hid) in *. cbn [pbind].
  destruct (eq_str (field "id" e) indicator); [|reflexivity].
  rewrite (has_key_field _ _ (Hfld eq_refl)). reflexivity.
Qed.

Lemma selected_fields (fld indicator : string) (entities : list json) :
  somes (map (fun e => if is_match indicator e then Some (field fld e) else None)
             entities)
  = map (field fld) (selected indicator entities).
Proof.
  induction entities as [|e entities IH]; [reflexivity|].
  cbn [map somes selected filter]. fold (selected indicator entities).
  destruct (is_match indicator e); cbn [map somes]; rewrite IH; reflexivity.
Qed.

Lemma collect_note_of (indicator fld : string) (entities : list json) :
  forallb (has_key "id") entities = true ->
  forallb (has_key fld) (selected indicator entities) = true ->
  collect (note_of indicator fld) entities
  = (map (fun e => if is_match indicator e then Some (field fld e) else None)
         entities, None).
Proof.
  intros Hid Hfld. apply collect_all_ok.
  rewrite forallb_forall in Hid, Hfld. apply Forall_forall. intros e Hin.
  apply note_of_ok; [apply Hid, Hin|].
  intros Hm. apply Hfld. apply filter_In. split; assumption.
Qed.

(** The definition cell over a list of entities that all carry an [id],
    those selected carrying the field too: it completes, and prints the
    field of every selected entity, in order. *)
Lemma definition_cell_list (indicator fld : string) (k : Kernel)
    (envelope : json) (entities : list json) :
  indicatorsJSON k = Some envelope ->
  getitem_int envelope 1 = Ok (JArr entities) ->
  forallb (has_key "id") entities = true ->
  forallb (has_key fld) (selected indicator entities) = true ->
  snd (definition_cell indicator fld k) = Ok tt /\
  stdout (fst (definition_cell indicator fld k))
  = stdout k ++ map ShowVal (map (field fld) (selected indicator entities)).
Proof.
  intros Henv Hitems Hid Hfld.
  rewrite (definition_cell_run _ _ _ _ Henv), Hitems. cbn [py_iter].
  rewrite (collect_note_of _ _ _ Hid Hfld). cbn [fst snd].
  split; [reflexivity|].
  destruct (print_notes_frame
              (map (fun e => if is_match indicator e then Some (field fld e) else None)
                   entities) k) as (_ & Hout & _).
  rewrite Hout, selected_fields. reflexivity.
Qed.

Lemma lookup_spec_head (indicator : string) (entities : list json) :
  lookup_spec entities indicator =
    match selected indicator entities with
    | [] => NotFound
    | r :: _ => Found r
    end.
Proof.
  induction entities as [|e entities IH]; [reflexivity|].
  cbn [lookup_spec selected filter]. fold (selected indicator entities).
  destruct (is_match indicator e); [reflexivity|exact IH].
Qed.



(** C3 (as stated, refuted). With two records under one code the scan does
    not stop at the first: the cell prints the field of both, where the
    first-match lookup of the design yields the first alone; the R
    rendering finds both positions as well. *)
Lemma duplicate_code_prints_both :
  let result := [ indicator_entity ("DT.DOD.DLXF.CD", "first");
                  indicator_entity ("DT.DOD.DLXF.CD", "second") ] in
  let run := fetch_then_define (flat_server result) "DT.DOD.DLXF.CD" "sourceNote"
               fresh_kernel in
  snd run = Ok tt /\
  stdout (fst run) = [ShowVal (JStr "first"); ShowVal (JStr "second")] /\
  printed_of (findMetadata_spec result "DT.DOD.DLXF.CD" "sourceNote")
  = [ShowVal (JStr "first")] /\
  stdout (fst run)
  <> printed_of (findMetadata_spec result "DT.DOD.DLXF.CD" "sourceNote") /\
  R.definition [Some "DT.DOD.DLXF.CD"; Some "DT.DOD.DLXF.CD"] "DT.DOD.DLXF.CD"
  = [1; 2].
Proof.
  repeat split. intros H. discriminate H.
Qed.

(** C3 (amended). The definition lookup scans the records in order and
    tests each code for exact, case-sensitive equality with the one asked
    for.  With no match it completes normally and prints nothing; with
    exactly one match it prints that record's field; with several records
    under the code it prints the field of every one of them, in sequence
    order, the first match first. *)
Theorem lookup_scans_every_match
    (indicator fld : string) (k : Kernel) (envelope : json)
    (entities : list json) :
  indicatorsJSON k = Some envelope ->
  getitem_int envelope 1 = Ok (JArr entities) ->
  forallb (has_key "id") entities = true ->
  forallb (has_key fld) (selected indicator entities) = true ->
  let run := definition_cell indicator fld k in
  (forall e, In e (selected indicator entities) <->
             In e entities /\ getitem_str e "id" = Ok (JStr indicator)) /\
  is_match "dt.dod.dlxf.cd" DLXF = false /\
  snd run = Ok tt /\
  stdout (fst run)
  = stdout k ++ map ShowVal (map (field fld) (selected indicator entities)) /\
  (selected indicator entities = [] ->
   stdout (fst run) = stdout k /\ lookup_spec entities indicator = NotFound) /\
  (forall r, selected indicator entities = [r] ->
   stdout (fst run) = stdout k ++ [ShowVal (field fld r)] /\
   lookup_spec entities indicator = Found r) /\
  (forall r more, selected indicator entities = r :: more ->
   stdout (fst run)
   = stdout k ++ ShowVal (field fld r) :: map ShowVal (map (field fld) more) /\
   lookup_spec entities indicator = Found r).
Proof.
  intros Henv Hitems Hid Hfld run.
  destruct (definition_cell_list indicator fld k envelope entities
              Henv Hitems Hid Hfld) as [Hres Hout].
  fold run in Hres, Hout.
  split.
  { intros e. unfold selected. rewrite filter_In, is_match_iff. reflexivity. }
  split; [reflexivity|].
  split; [exact Hres|].
  split; [exact Hout|].
  rewrite Hout, lookup_spec_head.
  split; [|split].
  - intros ->. cbn [map]. rewrite app_nil_r. split; reflexivity.
  - intros r ->. split; reflexivity.
  - intros r more ->. split; reflexivity.
Qed.

(** The guide's lookup on a three-record catalog: one match, one line. *)
Lemma lookup_scans_DLXF :
  let entities := [ numbered_entry 1; DLXF; numbered_entry 2 ] in
  let k := set_indicatorsJSON (flat_body entities 500) fresh_kernel in
  snd (definition_cell "DT.DOD.DLXF.CD" "sourceNote" k) = Ok tt /\
  stdout (fst (definition_cell "DT.DOD.DLXF.CD" "sourceNote" k))
  = [ShowVal (field "sourceNote" DLXF)].
Proof.
  pose proof (lookup_scans_every_match "DT.DOD.DLXF.CD" "sourceNote"
                (set_indicatorsJSON
                   (flat_body [numbered_entry 1; DLXF; numbered_entry 2] 500)
                   fresh_kernel)
                (flat_body [numbered_entry 1; DLXF; numbered_entry 2] 500)
                [numbered_entry 1; DLXF; numbered_entry 2]
                eq_refl eq_refl eq_refl eq_refl) as H.
  cbv zeta in H. destruct H as (_ & _ & Hres & _ & _ & Hone & _).
  split; [exact Hres|].
  exact (proj1 (Hone DLXF eq_refl)).
Defined.

(** ** The definition lookup as a composition *)

Lemma no_match_selected (indicator : string) (entities : list json) :
  forallb (fun e => negb (is_match indicator e)) entities = true ->
  selected indicator entities = [].
Proof.
  induction entities as [|e entities IH]; [reflexivity|].
  cbn [forallb selected filter]. intros H. apply andb_true_iff in H.
  destruct H as [He Hr]. apply negb_true_iff in He. rewrite He. exact (IH Hr).
Qed.






(** ** The location cells on a list of entries *)






(** ** What the fetched records carry *)









(** ** Fetching twice, and what is kept of the entries *)

Lemma last_twice {A} (l : list A) (d : A) : last l (last l d) = last l d.
Proof.
  destruct l as [|a l]; [reflexivity|]. rewrite !last_cons. reflexivity.
Qed.

Lemma indicators_cell_effect (srv : Server) (q : Query) (k : Kernel) :
  indicators_cell srv q k =
    match srv q with
    | Raise e => (log_request q k, Raise e)
    | Ok body =>
        match pbind (getitem_int body 1) py_iter with
        | Raise e => (set_indicatorsJSON body (log_request q k), Raise e)
        | Ok xs =>
            (bind_tuples (fst (collect flat_record xs))
               (set_indicatorsJSON body (log_request q k)),
             outcome (collect flat_record xs))
        end
    end.
Proof.
  rewrite indicators_cell_run. destruct (srv q) as [body|x]; [|reflexivity].
  rewrite (indicators_loop_run _ body) by reflexivity.
  destruct (getitem_int body 1) as [items|x]; [|reflexivity]. cbn [pbind].
  destruct (py_iter items); reflexivity.
Qed.

Ltac after_two_runs :=
  cbn [fst snd sent stdout df dlocationsList indicatorsJSON IDSindicators
       write_stdout set_dlocationsList set_df set_indicatorsJSON log_request];
  rewrite <- ?app_assoc;
  repeat split; try (intros; discriminate); try reflexivity.

(** C7. Two runs of a fetch cell with the same request against the same
    service, the second in the kernel the first left behind, end alike: the
    same outcome (the same records in the same order, or the same
    exception) and the same values in [df], [dlocationsList],
    [indicatorsJSON] and [IDSindicators]; nothing of the first run leaks
    into the second, whose data frame starts empty again.  The kernel has
    then sent the request twice. *)
Theorem fetch_twice_same_records :
  (forall (srv : Server) (q : Query) (k : Kernel),
     let first := fetch_debtors srv q k in
     let second := fetch_debtors srv q (fst first) in
     snd second = snd first /\
     (snd first = Ok tt -> dlocationsList (fst first) = df (fst first)) /\
     dlocationsList (fst second) = dlocationsList (fst first) /\
     df (fst second) = df (fst first) /\
     sent (fst second) = sent k ++ [q; q]) /\
  (forall (srv : Server) (q : Query) (k : Kernel),
     let first := indicators_cell srv q k in
     let second := indicators_cell srv q (fst first) in
     snd second = snd first /\
     indicatorsJSON (fst second) = indicatorsJSON (fst first) /\
     IDSindicators (fst second) = IDSindicators (fst first) /\
     sent (fst second) = sent k ++ [q; q]) /\
  (forall (srv : Server) (q : Query) (k k' : Kernel),
     snd (fetch_debtors srv q k) = snd (fetch_debtors srv q k') /\
     snd (indicators_cell srv q k) = snd (indicators_cell srv q k')).
Proof.
  split; [|split].
  - intros srv q k first second. unfold second, first, fetch_debtors.
    rewrite !locations_cell_run.
    destruct (srv q) as [body|x]; [|after_two_runs].
    destruct (variable_of body) as [locations|x]; [|after_two_runs].
    destruct (py_len locations) as [n|x]; [|after_two_runs].
    cbv zeta.
    destruct (snd (collect (row_at locations) (seq 0 n))) as [x|];
      after_two_runs.
  - intros srv q k first second. unfold second, first.
    rewrite !indicators_cell_effect.
    destruct (srv q) as [body|x]; [|after_two_runs].
    destruct (pbind (getitem_int body 1) py_iter) as [xs|x]; [|after_two_runs].
    set (ts := fst (collect flat_record xs)).
    set (k1 := set_indicatorsJSON body (log_request q k)).
    destruct (bind_tuples_frame ts k1) as (Hs1 & _ & Hj1 & _).
    destruct (bind_tuples_frame ts
                (set_indicatorsJSON body (log_request q (bind_tuples ts k1))))
      as (Hs2 & _ & Hj2 & _).
    cbn [fst snd]. rewrite Hs2, Hj2, Hj1, !bind_tuples_last.
    cbn [sent indicatorsJSON IDSindicators set_indicatorsJSON log_request].
    rewrite Hs1, bind_tuples_last.
    cbn [sent IDSindicators k1 set_indicatorsJSON log_request].
    rewrite last_twice, <- app_assoc. repeat split.
  - intros srv q k k'. split.
    + unfold fetch_debtors. rewrite !locations_cell_run.
      destruct (srv q) as [body|x]; [|reflexivity].
      destruct (variable_of body) as [locations|x]; [|reflexivity].
      destruct (py_len locations) as [n|x]; [|reflexivity]. cbv zeta.
      destruct (snd (collect (row_at locations) (seq 0 n))); reflexivity.
    + rewrite !indicators_cell_effect.
      destruct (srv q) as [body|x]; [|reflexivity].
      destruct (pbind (getitem_int body 1) py_iter); reflexivity.
Qed.



(** ** The guide's own runs *)

(** The guide finds 569 indicators, then asks for 500 a page: the loop
    visits 500 of them. *)
Example guide_total_569 :
  let run := (fetch_indicators (flat_server (numbered_catalog 569))
                (indicators_url None) ;;; total_cell) fresh_kernel in
  snd run = Ok (JNum 569) /\ stdout (fst run) = [ShowCount (JNum 569)].
Proof. vm_compute. split; reflexivity. Qed.

Example guide_reads_500_of_569 :
  exists recs,
    snd (indicators_cell (flat_server (numbered_catalog 569))
           (indicators_url (Some 500)) fresh_kernel) = Ok recs /\
    List.length recs = 500.
Proof.
  rewrite indicators_cell_flat by (vm_compute; reflexivity).
  eexists. split; [reflexivity|]. vm_compute. reflexivity.
Qed.

(** A debtor list whose eleventh entry has no [value]: the cell stops
    there; [df] keeps the ten rows appended so far, [dlocationsList] is
    never assigned and nothing is printed. *)
Example debtors_stop_at_missing_value :
  let run := dlocations_cell
               (nested_server (debtor_head ++ [JObj [("id", JStr "XKX")]]))
               fresh_kernel in
  snd run = Raise (KeyError (KStr "value")) /\
  df (fst run) = Some (map nested_pair debtor_head) /\
  dlocationsList (fst run) = None /\
  stdout (fst run) = [].
Proof. vm_compute. repeat split. Qed.

(** The creditor cell is the debtor cell over another path and another
    variable. *)
Example creditors_first_rows :
  let run := clocations_cell
               (nested_server [nested_entry "001" "Austria";
                               nested_entry "002" "Belgium"])
               fresh_kernel in
  snd run = Ok tt /\
  clocationsList (fst run)
  = Some [(JStr "001", JStr "Austria"); (JStr "002", JStr "Belgium")] /\
  dlocationsList (fst run) = None /\
  sent (fst run) = [clocations_url].
Proof. vm_compute. repeat split. Qed.

(** ** [formatNum] *)

Lemma py_round_cases (y : Q) :
  let f := Qfloor y in
  (inject_Z f <= y /\ y < inject_Z f + 1)%Q /\
  (((y - inject_Z f < 1 # 2)%Q /\ py_round y = f) \/
   ((1 # 2 < y - inject_Z f)%Q /\ py_round y = (f + 1)%Z) \/
   ((y - inject_Z f == 1 # 2)%Q /\
    py_round y = (if Z.even f then f else f + 1)%Z)).
Proof.
  intros f. split.
  - split; [apply Qfloor_le|].
    pose proof (Qlt_floor y) as H. fold f in H.
    rewrite inject_Z_plus in H. exact H.
  - unfold py_round. fold f.
    destruct (Qcompare (y - inject_Z f) (1 # 2)) eqn:E.
    + right; right. split; [apply Qeq_alt; exact E | reflexivity].
    + left. split; [apply Qlt_alt; exact E | reflexivity].
    + right; left. split; [apply Qgt_alt; exact E | reflexivity].
Qed.

Lemma even_choice (f : Z) : Z.even (if Z.even f then f else f + 1)%Z = true.
Proof.
  destruct (Z.even f) eqn:E; [exact E|].
  rewrite Z.even_add, E. reflexivity.
Qed.

Lemma py_round_nearest (y : Q) :
  (Qabs (inject_Z (py_round y) - y) <= 1 # 2)%Q /\
  ((Qabs (inject_Z (py_round y) - y) == 1 # 2)%Q -> Z.even (py_round y) = true).
Proof.
  destruct (py_round_cases y) as [[Hlo Hhi] Hc].
  set (f := Qfloor y) in *.
  destruct Hc as [[Hd ->] | [[Hd ->] | [Hd ->]]].
  - split.
    + apply Qabs_Qle_condition. split; lra.
    + intros Ht. exfalso.
      rewrite Qabs_neg in Ht by lra. lra.
  - rewrite inject_Z_plus. change (inject_Z 1) with 1%Q. split.
    + apply Qabs_Qle_condition. split; lra.
    + intros Ht. exfalso.
      rewrite Qabs_pos in Ht by lra. lra.
  - split; [|intros _; apply even_choice].
    destruct (Z.even f).
    + apply Qabs_Qle_condition. split; lra.
    + rewrite inject_Z_plus. change (inject_Z 1) with 1%Q.
      apply Qabs_Qle_condition. split; lra.
Qed.

Lemma py_round_unique (y : Q) (z : Z) :
  (Qabs (inject_Z z - y) <= 1 # 2)%Q ->
  ((Qabs (inject_Z z - y) == 1 # 2)%Q -> Z.even z = true) ->
  z = py_round y.
Proof.
  intros Hnear Htie.
  destruct (py_round_cases y) as [[Hlo Hhi] Hc].
  set (f := Qfloor y) in *.
  apply Qabs_Qle_condition in Hnear. destruct Hnear as [Hn1 Hn2].
  assert (Hzf : (f <= z <= f + 1)%Z).
  { split.
    - assert (H : (inject_Z (f - 1) < inject_Z z)%Q).
      { unfold Z.sub. rewrite inject_Z_plus, inject_Z_opp.
        change (inject_Z 1) with 1%Q. lra. }
      rewrite <- Zlt_Qlt in H. lia.
    - assert (H : (inject_Z z < inject_Z (f + 2))%Q).
      { rewrite inject_Z_plus. change (inject_Z 2) with 2%Q. lra. }
      rewrite <- Zlt_Qlt in H. lia. }
  assert (Hz : z = f \/ z = (f + 1)%Z) by lia.
  destruct Hc as [[Hd ->] | [[Hd ->] | [Hd ->]]].
  - destruct Hz as [->| ->]; [reflexivity|]. exfalso.
    rewrite inject_Z_plus in Hn2. change (inject_Z 1) with 1%Q in Hn2. lra.
  - destruct Hz as [->| ->]; [|reflexivity]. exfalso. lra.
  - destruct Hz as [->| ->].
    + assert (He : Z.even f = true).
      { apply Htie. rewrite Qabs_neg by lra. lra. }
      rewrite He. reflexivity.
    + assert (He : Z.even (f + 1) = true).
      { apply Htie. rewrite inject_Z_plus. change (inject_Z 1) with 1%Q.
        rewrite Qabs_pos by lra. lra. }
      rewrite Z.even_add in He.
      destruct (Z.even f); [discriminate He|reflexivity].
Qed.

(** C9. [formatNum x] is [x / 1000000000] rounded to the nearest integer,
    a tie going to the even neighbour (Python 3's [round]), over exact
    rationals: the result is within one half of the quotient, it is even
    whenever it is exactly one half away, and it is the only integer with
    these two properties; 1,500,000,000 gives 2 and 500,000,000 gives 0,
    not 1. *)
Theorem formatNum_round_half_even :
  (forall x : Q,
     let y := (x / inject_Z 1000000000)%Q in
     (Qabs (inject_Z (formatNum x) - y) <= 1 # 2)%Q /\
     ((Qabs (inject_Z (formatNum x) - y) == 1 # 2)%Q ->
      Z.even (formatNum x) = true) /\
     (forall z : Z,
        (Qabs (inject_Z z - y) <= 1 # 2)%Q ->
        ((Qabs (inject_Z z - y) == 1 # 2)%Q -> Z.even z = true) ->
        z = formatNum x)) /\
  formatNum (inject_Z 1500000000) = 2%Z /\
  formatNum (inject_Z 500000000) = 0%Z /\
  formatNum (inject_Z 500000000) <> 1%Z.
Proof.
  split; [|repeat split; vm_compute; congruence].
  intros x y. unfold formatNum. fold y.
  destruct (py_round_nearest y) as [H1 H2].
  repeat split; auto.
  intros z Hz1 Hz2. apply py_round_unique; assumption.
Qed.

(** ** [str.replace] and the region names *)

Section RegionNames.

Local Open Scope string_scope.

Lemma prefix_single (c a : ascii) (rest : string) :
  String.prefix (String c EmptyString) (String a rest) = Ascii.eqb a c.
Proof.
  simpl. destruct (ascii_dec c a) as [->|N].
  - rewrite Ascii.eqb_refl. destruct rest; reflexivity.
  - symmetry. apply Ascii.eqb_neq. congruence.
Qed.

Lemma replace_single_char (c : ascii) (s : string) :
  str_replace (String c EmptyString) "" s = drop_char c s.
Proof.
  unfold str_replace.
  induction s as [|a rest IH]; [reflexivity|].
  cbn [replace_from drop_char]. rewrite prefix_single.
  destruct (Ascii.eqb a c); cbn [String.length Nat.sub append]; rewrite IH; reflexivity.
Qed.

Lemma occurs_single (c a : ascii) (rest : string) :
  occurs (String c EmptyString) (String a rest)
  = Ascii.eqb a c || occurs (String c EmptyString) rest.
Proof. cbn [occurs]. rewrite prefix_single. reflexivity. Qed.

Lemma drop_char_absent (c : ascii) (s : string) :
  occurs (String c EmptyString) s = false -> drop_char c s = s.
Proof.
  induction s as [|a rest IH]; [reflexivity|].
  rewrite occurs_single. intros H. apply orb_false_iff in H. destruct H as [Ha Hr].
  cbn [drop_char]. rewrite Ha, (IH Hr). reflexivity.
Qed.

Lemma drop_char_gone (c : ascii) (s : string) :
  occurs (String c EmptyString) (drop_char c s) = false.
Proof.
  induction s as [|a rest IH]; [reflexivity|].
  cbn [drop_char]. destruct (Ascii.eqb a c) eqn:E; [exact IH|].
  rewrite occurs_single, E, IH. reflexivity.
Qed.

Lemma drop_char_keeps_absent (c d : ascii) (s : string) :
  occurs (String d EmptyString) s = false ->
  occurs (String d EmptyString) (drop_char c s) = false.
Proof.
  induction s as [|a rest IH]; [reflexivity|].
  rewrite occurs_single. intros H. apply orb_false_iff in H. destruct H as [Ha Hr].
  cbn [drop_char]. destruct (Ascii.eqb a c); [exact (IH Hr)|].
  rewrite occurs_single, Ha, (IH Hr). reflexivity.
Qed.

Lemma drop_char_app (c : ascii) (s t : string) :
  drop_char c (s ++ t) = drop_char c s ++ drop_char c t.
Proof.
  induction s as [|a rest IH]; [reflexivity|].
  cbn [append drop_char]. rewrite IH. destruct (Ascii.eqb a c); reflexivity.
Qed.

Lemma replace_absent (pat rep s : string) :
  occurs pat s = false -> replace_from pat rep 0 s = s.
Proof.
  induction s as [|a rest IH]; [reflexivity|].
  cbn [occurs replace_from]. intros H. apply orb_false_iff in H. destruct H as [Hp Hr].
  rewrite Hp, (IH Hr). reflexivity.
Qed.

Lemma str_replace_absent (pat rep s : string) :
  pat <> "" -> occurs pat s = false -> str_replace pat rep s = s.
Proof.
  intros Hne H. unfold str_replace. destruct pat; [congruence|].
  apply replace_absent; exact H.
Qed.

(** Skipping the rest of a matched pattern. *)
Lemma replace_skip (pat rep p s : string) :
  replace_from pat rep (String.length p) (p ++ s) = replace_from pat rep 0 s.
Proof.
  induction p as [|a p IH]; cbn [String.length append].
  - destruct s; reflexivity.
  - cbn [replace_from]. exact IH.
Qed.

Lemma prefix_app (p s : string) : String.prefix p (p ++ s) = true.
Proof.
  induction p as [|a p IH]; cbn [append String.prefix].
  - destruct s; reflexivity.
  - destruct (ascii_dec a a); [exact IH|congruence].
Qed.

Lemma replace_at_match (pat rep s : string) :
  pat <> "" ->
  replace_from pat rep 0 (pat ++ s) = rep ++ replace_from pat rep 0 s.
Proof.
  intros Hne. destruct pat as [|a p]; [congruence|].
  change (String a p ++ s) with (String a (p ++ s)).
  cbn [replace_from].
  change (String a (p ++ s)) with (String a p ++ s). rewrite prefix_app.
  replace (String.length (String a p) - 1) with (String.length p)
    by (cbn [String.length]; lia).
  rewrite replace_skip. reflexivity.
Qed.

Lemma replace_before_match (pat rep a rest : string) :
  starts_after pat a rest = true ->
  replace_from pat rep 0 (a ++ rest) = a ++ replace_from pat rep 0 rest.
Proof.
  induction a as [|c a IH]; [reflexivity|].
  cbn [starts_after]. intros H. apply andb_true_iff in H. destruct H as [Hp Hr].
  apply negb_true_iff in Hp.
  change (String c a ++ rest) with (String c (a ++ rest)) in *.
  cbn [replace_from]. rewrite Hp, (IH Hr). reflexivity.
Qed.

(** A match that starts inside [a] and is not inside [a] runs over the
    character after it. *)
Lemma prefix_straddle (p a : string) (c : ascii) (t : string) :
  String.prefix p (a ++ String c t) = true ->
  String.prefix p a = true \/ occurs (String c EmptyString) p = true.
Proof.
  revert a; induction p as [|x p IH]; intros a H.
  - left. destruct a; reflexivity.
  - destruct a as [|y a].
    + right. cbn [append String.prefix] in H.
      destruct (ascii_dec x c) as [->|]; [|discriminate].
      rewrite occurs_single, Ascii.eqb_refl. reflexivity.
    + cbn [append String.prefix] in H |- *.
      destruct (ascii_dec x y) as [->|]; [|discriminate].
      destruct (IH a H) as [Hl|Hr]; [left; exact Hl|right].
      rewrite occurs_single, Hr. apply orb_true_r.
Qed.

Lemma starts_after_paren (p a : string) (c : ascii) (t : string) :
  occurs p a = false ->
  occurs (String c EmptyString) p = false ->
  starts_after p a (String c t) = true.
Proof.
  intros Ha Hc. induction a as [|y a IH]; [reflexivity|].
  cbn [occurs] in Ha. apply orb_false_iff in Ha. destruct Ha as [Hp Hr].
  cbn [starts_after]. rewrite (IH Hr), andb_true_r. apply negb_true_iff.
  destruct (String.prefix p (String y a ++ String c t)) eqn:E; [|reflexivity].
  destruct (prefix_straddle _ _ _ _ E) as [H|H]; congruence.
Qed.

Lemma append_empty (s : string) : s ++ "" = s.
Proof. induction s as [|a s IH]; cbn; [|rewrite IH]; reflexivity. Qed.

Lemma clean_region_parens (name : string) :
  clean_region name
  = drop_char "(" (drop_char ")" (str_replace excluding "" name)).
Proof.
  unfold clean_region. rewrite !replace_single_char. reflexivity.
Qed.

Lemma clean_region_no_excluding (name : string) :
  occurs excluding name = false ->
  clean_region name = drop_char "(" (drop_char ")" name).
Proof.
  intros H. rewrite clean_region_parens, str_replace_absent; auto.
  discriminate.
Qed.

(** C10. The cleanup of a region name deletes the occurrences of
    ["excluding high income"] found left to right, then every [")"] and
    every ["("] wherever they stand: the result holds no parenthesis; a
    parenthesized text keeps its content and loses its parentheses; a name
    with no parenthesis and no such substring comes back unchanged; and a
    name ending in ["(excluding high income)"] loses that suffix. *)
Theorem clean_region_removes_everywhere :
  (forall name,
     clean_region name
     = drop_char "(" (drop_char ")" (str_replace excluding "" name)) /\
     occurs "(" (clean_region name) = false /\
     occurs ")" (clean_region name) = false) /\
  (forall a b,
     starts_after excluding a (excluding ++ b) = true ->
     str_replace excluding "" (a ++ excluding ++ b)
     = a ++ str_replace excluding "" b) /\
  (forall a b c,
     occurs excluding (a ++ "(" ++ b ++ ")" ++ c) = false ->
     occurs "(" a = false -> occurs ")" a = false ->
     occurs "(" b = false -> occurs ")" b = false ->
     occurs "(" c = false -> occurs ")" c = false ->
     clean_region (a ++ "(" ++ b ++ ")" ++ c) = a ++ b ++ c) /\
  (forall name,
     occurs "(" name = false -> occurs ")" name = false ->
     occurs excluding name = false ->
     clean_region name = name) /\
  (forall r,
     occurs "(" r = false -> occurs ")" r = false ->
     occurs excluding r = false ->
     clean_region (r ++ "(excluding high income)") = r) /\
  clean_Region [ "East Asia & Pacific (excluding high income)"; "South Asia";
                 "Sub-Saharan Africa (excluding high income)" ]
  = [ "East Asia & Pacific "; "South Asia"; "Sub-Saharan Africa " ].
Proof.
  split; [|split; [|split; [|split; [|split]]]].
  - intros name. rewrite clean_region_parens. split; [reflexivity|split].
    + apply (drop_char_gone "(").
    + apply (drop_char_keeps_absent "(" ")"), (drop_char_gone ")").
  - intros a b H. unfold str_replace, excluding in *.
    rewrite replace_before_match by exact H.
    rewrite replace_at_match by discriminate. reflexivity.
  - intros a b c He Ha1 Ha2 Hb1 Hb2 Hc1 Hc2.
    rewrite clean_region_no_excluding by exact He.
    rewrite !drop_char_app.
    rewrite (drop_char_absent ")" a), (drop_char_absent ")" b),
            (drop_char_absent ")" c) by assumption.
    rewrite (drop_char_absent "(" a), (drop_char_absent "(" b),
            (drop_char_absent "(" c) by assumption.
    reflexivity.
  - intros name H1 H2 He.
    rewrite clean_region_no_excluding by exact He.
    rewrite (drop_char_absent ")" name H2). apply drop_char_absent; exact H1.
  - intros r H1 H2 He.
    rewrite clean_region_parens.
    change (r ++ "(excluding high income)")
      with (r ++ String "(" (excluding ++ ")")).
    unfold str_replace, excluding.
    rewrite replace_before_match
      by (apply starts_after_paren; [exact He|reflexivity]).
    change (replace_from "excluding high income" "" 0
              (String "(" ("excluding high income" ++ ")")))
      with (String "(" (replace_from "excluding high income" "" 0
                          ("excluding high income" ++ ")"))).
    rewrite replace_at_match by discriminate.
    cbn [replace_from append String.prefix].
    rewrite !drop_char_app.
    rewrite (drop_char_absent ")" r H2), (drop_char_absent "(" r H1).
    cbn. apply append_empty.
  - vm_compute. reflexivity.
Qed.

End RegionNames.

(** * Further properties of the cells *)

(** ** The source cell *)

Lemma sources_cell_run (srv : Server) (k : Kernel) :
  sources_cell srv k =
    match srv sources_url with
    | Raise e => (log_request sources_url k, Raise e)
    | Ok body =>
        match pbind (getitem_int body 1) py_iter with
        | Raise e => (log_request sources_url k, Raise e)
        | Ok xs =>
            (print_notes (fst (collect source_line xs)) (log_request sources_url k),
             match snd (collect source_line xs) with
             | None => Ok tt
             | Some e => Raise e
             end)
        end
    end.
Proof.
  unfold sources_cell, bind at 1, requests_get_json.
  destruct (srv sources_url) as [body|e]; [|reflexivity].
  unfold bind at 1, eval. destruct (getitem_int body 1) as [items|e]; [|reflexivity].
  cbn [pbind]. unfold bind at 1. destruct (py_iter items) as [xs|e]; [|reflexivity].
  unfold bind at 1.
  rewrite (for_each_collect source_line (fun _ => tt)
             (fun o k' => match o with
                          | Some v => write_stdout (ShowVal v) k'
                          | None => k'
                          end) _ (fun _ => True)); auto.
  - destruct (snd (collect source_line xs)); reflexivity.
  - intros x k' _. unfold bind, source_line, pbind, print, modify, ret, eval.
    destruct (getitem_str x "name") as [name|e]; [|reflexivity].
    destruct (eq_str name IDS_name); [|reflexivity].
    destruct (getitem_str x "id") as [id|e]; [|reflexivity].
    destruct (str_add source_id_sentence id); reflexivity.
Qed.

(** ** The cells in closed form, whatever the kernel holds *)

Lemma definition_cell_effect (indicator fld : string) (k : Kernel) :
  definition_cell indicator fld k =
    match entities_of (indicatorsJSON k) with
    | Raise e => (k, Raise e)
    | Ok xs =>
        (print_notes (fst (collect (note_of indicator fld) xs)) k,
         match snd (collect (note_of indicator fld) xs) with
         | None => Ok tt
         | Some e => Raise e
         end)
    end.
Proof.
  destruct (indicatorsJSON k) as [env|] eqn:E.
  - rewrite (definition_cell_run _ _ _ _ E). cbn [entities_of].
    destruct (getitem_int env 1) as [items|e]; [|reflexivity]. cbn [pbind].
    destruct (py_iter items); reflexivity.
  - unfold definition_cell, bind at 1, read_global. rewrite E. reflexivity.
Qed.

Lemma total_cell_effect (k : Kernel) :
  total_cell k =
    match indicatorsJSON k with
    | None => (k, Raise (NameError "indicatorsJSON"))
    | Some env =>
        match pbind (getitem_int env 0) (fun paging => getitem_str paging "total") with
        | Ok total => (write_stdout (ShowCount total) k, Ok total)
        | Raise e => (k, Raise e)
        end
    end.
Proof.
  destruct (indicatorsJSON k) as [env|] eqn:E.
  - apply total_cell_run, E.
  - unfold total_cell, bind at 1, read_global. rewrite E. reflexivity.
Qed.

Lemma indicators_loop_effect (k : Kernel) :
  indicators_loop k =
    match entities_of (indicatorsJSON k) with
    | Raise e => (k, Raise e)
    | Ok xs => (bind_tuples (fst (collect flat_record xs)) k,
                outcome (collect flat_record xs))
    end.
Proof.
  destruct (indicatorsJSON k) as [env|] eqn:E.
  - rewrite (indicators_loop_run _ _ E). cbn [entities_of].
    destruct (getitem_int env 1) as [items|e]; [|reflexivity]. cbn [pbind].
    destruct (py_iter items); reflexivity.
  - unfold indicators_loop, bind at 1, read_global. rewrite E. reflexivity.
Qed.

Lemma same_globals_refl (k : Kernel) : same_globals k k.
Proof. repeat split. Qed.

Lemma print_notes_globals (notes : list (option json)) (k : Kernel) :
  same_globals k (print_notes notes k).
Proof.
  destruct (print_notes_frame notes k) as (H1 & _ & H3 & H4 & H5 & H6 & H7).
  repeat split; assumption.
Qed.

(** ** One request for each fetch, none for a reading cell *)

(** X1. A cell that fetches sends exactly one request, whatever comes back:
    an unreachable service, a body of the wrong shape or an entry without
    its keys never lead to a second request or to a request for another
    page. *)
Theorem one_request_per_fetch :
  (forall srv q k, sent (fst (indicators_cell srv q k)) = sent k ++ [q]) /\
  (forall srv q k, sent (fst (fetch_debtors srv q k)) = sent k ++ [q]) /\
  (forall srv k, sent (fst (dlocations_cell srv k)) = sent k ++ [dlocations_url]) /\
  (forall srv k, sent (fst (clocations_cell srv k)) = sent k ++ [clocations_url]) /\
  (forall srv k, sent (fst (sources_cell srv k)) = sent k ++ [sources_url]).
Proof.
  assert (Hloc : forall srv q assign k,
            (forall rows k', sent (assign rows k') = sent k') ->
            sent (fst (locations_cell srv q assign k)) = sent k ++ [q]).
  { intros srv q assign k Ha. rewrite locations_cell_run.
    destruct (srv q) as [body|e]; [|reflexivity].
    destruct (variable_of body) as [locations|e]; [|reflexivity].
    destruct (py_len locations) as [n|e]; [|reflexivity]. cbv zeta.
    destruct (snd (collect (row_at locations) (seq 0 n))); [reflexivity|].
    cbn [fst write_stdout sent]. rewrite Ha. reflexivity. }
  split; [|split; [|split; [|split]]].
  - intros srv q k. rewrite indicators_cell_effect.
    destruct (srv q) as [body|e]; [|reflexivity].
    destruct (pbind (getitem_int body 1) py_iter) as [xs|e]; [|reflexivity].
    cbn [fst].
    destruct (bind_tuples_frame (fst (collect flat_record xs))
                (set_indicatorsJSON body (log_request q k))) as (H & _).
    rewrite H. reflexivity.
  - intros srv q k. apply Hloc. reflexivity.
  - intros srv k. apply Hloc. reflexivity.
  - intros srv k. apply Hloc. reflexivity.
  - intros srv k. rewrite sources_cell_run.
    destruct (srv sources_url) as [body|e]; [|reflexivity].
    destruct (pbind (getitem_int body 1) py_iter) as [xs|e]; [|reflexivity].
    cbn [fst].
    destruct (print_notes_frame (fst (collect source_line xs))
                (log_request sources_url k)) as (H & _).
    rewrite H. reflexivity.
Qed.

(** X2. The definition lookup and the total count only read: whatever the
    kernel holds and however they end, they send no request and leave
    every global as it was; all they do is add to the output, the lookup
    any number of lines, the count at most one. *)
Theorem reading_cells_only_print :
  (forall indicator fld k,
     same_globals k (fst (definition_cell indicator fld k)) /\
     exists lines,
       stdout (fst (definition_cell indicator fld k))
       = stdout k ++ map ShowVal lines) /\
  (forall k,
     same_globals k (fst (total_cell k)) /\
     (stdout (fst (total_cell k)) = stdout k \/
      exists total,
        snd (total_cell k) = Ok total /\
        stdout (fst (total_cell k)) = stdout k ++ [ShowCount total])).
Proof.
  split.
  - intros indicator fld k. rewrite definition_cell_effect.
    destruct (entities_of (indicatorsJSON k)) as [xs|e]; cbn [fst].
    + split; [apply print_notes_globals|].
      destruct (print_notes_frame (fst (collect (note_of indicator fld) xs)) k)
        as (_ & H & _).
      eexists. exact H.
    + split; [apply same_globals_refl|].
      exists []. cbn [map]. rewrite app_nil_r. reflexivity.
  - intros k. rewrite total_cell_effect.
    destruct (indicatorsJSON k) as [env|];
      [|split; [apply same_globals_refl|left; reflexivity]].
    destruct (pbind (getitem_int env 0) (fun paging => getitem_str paging "total"))
      as [total|e]; cbn [fst snd].
    + split; [repeat split|]. right. exists total. split; reflexivity.
    + split; [apply same_globals_refl|left; reflexivity].
Qed.

(** X3. A request that fails leaves [indicatorsJSON] bound to the body of
    the last request that succeeded: the indicator cell stops before its
    loop, and the total count, the indicator loop and the definition
    lookup run afterwards answer from that older body, exactly as they
    would have before the failed request. *)
Theorem failed_request_keeps_old_body
    (srv : Server) (q : Query) (k : Kernel) (e : PyExc) :
  srv q = Raise e ->
  let k1 := fst (indicators_cell srv q k) in
  snd (indicators_cell srv q k) = Raise e /\
  indicatorsJSON k1 = indicatorsJSON k /\
  IDSindicators k1 = IDSindicators k /\
  stdout k1 = stdout k /\
  snd (total_cell k1) = snd (total_cell k) /\
  snd (indicators_loop k1) = snd (indicators_loop k) /\
  (forall indicator fld,
     snd (definition_cell indicator fld k1) = snd (definition_cell indicator fld k) /\
     stdout (fst (definition_cell indicator fld k1))
     = stdout (fst (definition_cell indicator fld k))).
Proof.
  intros Hfail k1. unfold k1. rewrite indicators_cell_effect, Hfail. cbn [fst snd].
  split; [reflexivity|]. split; [reflexivity|]. split; [reflexivity|].
  split; [reflexivity|].
  split.
  { rewrite !total_cell_effect. cbn [indicatorsJSON log_request].
    destruct (indicatorsJSON k) as [env|]; [|reflexivity].
    destruct (pbind (getitem_int env 0) (fun paging => getitem_str paging "total"));
      reflexivity. }
  split.
  { rewrite !indicators_loop_effect. cbn [indicatorsJSON log_request].
    destruct (entities_of (indicatorsJSON k)); reflexivity. }
  intros indicator fld. rewrite !definition_cell_effect.
  cbn [indicatorsJSON log_request].
  destruct (entities_of (indicatorsJSON k)) as [xs|x]; cbn [fst snd];
    [|split; reflexivity].
  split; [reflexivity|].
  destruct (print_notes_frame (fst (collect (note_of indicator fld) xs))
              (log_request q k)) as (_ & H1 & _).
  destruct (print_notes_frame (fst (collect (note_of indicator fld) xs)) k)
    as (_ & H2 & _).
  rewrite H1, H2. reflexivity.
Qed.

(** The guide's 569 indicators fetched, then the service lost: the count
    still says 569. *)
Lemma failed_request_still_569 :
  let k := fst (fetch_indicators (flat_server (numbered_catalog 569))
                  (indicators_url None) fresh_kernel) in
  let k1 := fst (indicators_cell unreachable (indicators_url (Some 500)) k) in
  snd (indicators_cell unreachable (indicators_url (Some 500)) k)
  = Raise ConnectionError /\
  snd (total_cell k1) = Ok (JNum 569).
Proof.
  destruct (failed_request_keeps_old_body unreachable (indicators_url (Some 500))
              (fst (fetch_indicators (flat_server (numbered_catalog 569))
                      (indicators_url None) fresh_kernel))
              ConnectionError eq_refl) as (H1 & _ & _ & _ & H2 & _).
  split; [exact H1|].
  cbv zeta in H2. rewrite H2. vm_compute. reflexivity.
Defined.

Lemma reading_globals (indicator fld : string) (k : Kernel) :
  same_globals k (fst (definition_cell indicator fld k)).
Proof.
  rewrite definition_cell_effect.
  destruct (entities_of (indicatorsJSON k)); cbn [fst];
    [apply print_notes_globals|apply same_globals_refl].
Qed.

(** ** Where a loop stops *)

Lemma collect_stops {A B} (f : A -> PyResult B) (h : A -> B)
    (pre post : list A) (bad : A) (e : PyExc) :
  Forall (fun x => f x = Ok (h x)) pre ->
  f bad = Raise e ->
  collect f (pre ++ bad :: post) = (map h pre, Some e).
Proof.
  intros Hpre Hbad. rewrite collect_app, (collect_all_ok f h pre Hpre).
  cbn [fst snd collect]. rewrite Hbad, app_nil_r. reflexivity.
Qed.

Lemma flat_keys_Forall (entries : list json) :
  forallb (has_keys ["id"; "name"]) entries = true ->
  Forall (fun x => flat_record x = Ok (flat_pair x)) entries.
Proof.
  intros H. rewrite forallb_forall in H. apply Forall_forall.
  intros x Hx. apply flat_record_ok, H, Hx.
Qed.


(** X4. [IDSindicators] holds one tuple, not the list: after a completed
    loop it is the [(id, name)] of the last entry of the page, and over an
    empty page it keeps whatever it held before.  When an entry cannot be
    read the cell raises there and [IDSindicators] is left at the entry
    before it, while [indicatorsJSON] already holds the new body. *)
Theorem IDSindicators_is_last_tuple :
  (forall srv q k body entries final,
     srv q = Ok body ->
     getitem_int body 1 = Ok (JArr (entries ++ [final])) ->
     forallb (has_keys ["id"; "name"]) (entries ++ [final]) = true ->
     snd (indicators_cell srv q k) = Ok (map flat_pair (entries ++ [final])) /\
     IDSindicators (fst (indicators_cell srv q k)) = Some (flat_pair final)) /\
  (forall srv q k body,
     srv q = Ok body ->
     getitem_int body 1 = Ok (JArr []) ->
     snd (indicators_cell srv q k) = Ok [] /\
     IDSindicators (fst (indicators_cell srv q k)) = IDSindicators k) /\
  (forall srv q k body pre bad post e,
     srv q = Ok body ->
     getitem_int body 1 = Ok (JArr (pre ++ bad :: post)) ->
     forallb (has_keys ["id"; "name"]) pre = true ->
     flat_record bad = Raise e ->
     snd (indicators_cell srv q k) = Raise e /\
     IDSindicators (fst (indicators_cell srv q k))
     = last (map Some (map flat_pair pre)) (IDSindicators k) /\
     indicatorsJSON (fst (indicators_cell srv q k)) = Some body).
Proof.
  split; [|split].
  - intros srv q k body entries final Hb Hitems Hwf.
    rewrite indicators_cell_effect, Hb, Hitems. cbn [pbind py_iter].
    rewrite (collect_flat_ok _ Hwf). cbn [fst snd].
    split; [reflexivity|].
    rewrite bind_tuples_last, !map_app. cbn [map].
    rewrite last_last. reflexivity.
  - intros srv q k body Hb Hitems.
    rewrite indicators_cell_effect, Hb, Hitems. split; reflexivity.
  - intros srv q k body pre bad post e Hb Hitems Hwf Hbad.
    rewrite indicators_cell_effect, Hb, Hitems. cbn [pbind py_iter].
    rewrite (collect_stops flat_record flat_pair pre post bad e
               (flat_keys_Forall _ Hwf) Hbad).
    cbn [fst snd outcome].
    split; [reflexivity|]. rewrite bind_tuples_last.
    destruct (bind_tuples_frame (map flat_pair pre)
                (set_indicatorsJSON body (log_request q k))) as (_ & _ & H & _).
    rewrite H. split; reflexivity.
Qed.

(** Two indicators served, the second without a name. *)
Lemma IDSindicators_before_nameless :
  let srv := flat_server [numbered_entry 7; JObj [("id", JStr "DT.X")]] in
  let run := indicators_cell srv (indicators_url (Some 500)) fresh_kernel in
  snd run = Raise (KeyError (KStr "name")) /\
  IDSindicators (fst run) = Some (flat_pair (numbered_entry 7)).
Proof.
  destruct (proj2 (proj2 IDSindicators_is_last_tuple)
              (flat_server [numbered_entry 7; JObj [("id", JStr "DT.X")]])
              (indicators_url (Some 500)) fresh_kernel
              (flat_body [numbered_entry 7; JObj [("id", JStr "DT.X")]] 500)
              [numbered_entry 7] (JObj [("id", JStr "DT.X")]) []
              (KeyError (KStr "name")) eq_refl eq_refl eq_refl eq_refl)
    as (H1 & H2 & _).
  split; [exact H1|exact H2].
Defined.

(** X5. The definition lookup stops at the first entity it cannot read, one
    without an [id] or a matching one without the field: it raises there,
    having printed the field of every match before it, and does not look
    at the entities after it. *)
Theorem definition_stops_at_bad_entity
    (indicator fld : string) (k : Kernel) (envelope : json)
    (pre post : list json) (bad : json) (e : PyExc) :
  indicatorsJSON k = Some envelope ->
  getitem_int envelope 1 = Ok (JArr (pre ++ bad :: post)) ->
  forallb (has_key "id") pre = true ->
  forallb (has_key fld) (selected indicator pre) = true ->
  note_of indicator fld bad = Raise e ->
  snd (definition_cell indicator fld k) = Raise e /\
  stdout (fst (definition_cell indicator fld k))
  = stdout k ++ map ShowVal (map (field fld) (selected indicator pre)) /\
  (has_key "id" bad = false -> forall fields, bad = JObj fields ->
   e = KeyError (KStr "id")) /\
  (is_match indicator bad = true -> forall fields, bad = JObj fields ->
   e = KeyError (KStr fld)).
Proof.
  intros Henv Hitems Hid Hfld Hbad.
  rewrite (definition_cell_run _ _ _ _ Henv), Hitems. cbn [py_iter].
  assert (Hpre : Forall (fun x => note_of indicator fld x
                   = Ok (if is_match indicator x then Some (field fld x) else None))
                   pre).
  { rewrite forallb_forall in Hid, Hfld. apply Forall_forall. intros x Hx.
    apply note_of_ok; [apply Hid, Hx|].
    intros Hm. apply Hfld, filter_In. split; assumption. }
  rewrite (collect_stops _ _ pre post bad e Hpre Hbad). cbn [fst snd].
  split; [reflexivity|]. split.
  { destruct (print_notes_frame
                (map (fun x => if is_match indicator x then Some (field fld x) else None)
                     pre) k) as (_ & H & _).
    rewrite H, selected_fields. reflexivity. }
  split.
  - intros Hno fields ->. unfold note_of, has_key in *. cbn [getitem_str] in *.
    destruct (assoc "id" fields); [discriminate|]. cbn [pbind] in Hbad.
    inversion Hbad. reflexivity.
  - intros Hm fields ->. unfold note_of, is_match in *. cbn [getitem_str] in *.
    destruct (assoc "id" fields) as [id|]; [|discriminate]. cbn [pbind] in Hbad.
    rewrite Hm in Hbad.
    destruct (assoc fld fields); cbn [pbind] in Hbad; [discriminate|].
    inversion Hbad. reflexivity.
Qed.

(** The guide's record, then an entity without [id], then a second match
    that is never reached. *)
Lemma definition_stops_after_DLXF :
  let k := set_indicatorsJSON (JArr [JNull; JArr [DLXF; JObj []; DLXF]])
             fresh_kernel in
  snd (definition_cell "DT.DOD.DLXF.CD" "sourceNote" k)
  = Raise (KeyError (KStr "id")) /\
  stdout (fst (definition_cell "DT.DOD.DLXF.CD" "sourceNote" k))
  = [ShowVal (field "sourceNote" DLXF)].
Proof.
  destruct (definition_stops_at_bad_entity "DT.DOD.DLXF.CD" "sourceNote"
              (set_indicatorsJSON (JArr [JNull; JArr [DLXF; JObj []; DLXF]])
                 fresh_kernel)
              (JArr [JNull; JArr [DLXF; JObj []; DLXF]])
              [DLXF] [DLXF] (JObj []) (KeyError (KStr "id"))
              eq_refl eq_refl eq_refl eq_refl eq_refl) as (H1 & H2 & _).
  split; [exact H1|exact H2].
Defined.

(** X6. The total count completes exactly when [indicatorsJSON] is bound
    to a list whose first element is a dict with a [total]; it then prints
    that value in one line.  Run before any request it raises [NameError];
    on a nested body it raises [KeyError 0]; in both cases nothing is
    printed. *)
Theorem total_cell_completes_iff :
  (forall k total,
     snd (total_cell k) = Ok total <->
     exists paging rest,
       indicatorsJSON k = Some (JArr (JObj paging :: rest)) /\
       assoc "total" paging = Some total) /\
  (forall k total,
     snd (total_cell k) = Ok total ->
     stdout (fst (total_cell k)) = stdout k ++ [ShowCount total]) /\
  (forall k,
     indicatorsJSON k = None ->
     total_cell k = (k, Raise (NameError "indicatorsJSON"))) /\
  (forall k top,
     indicatorsJSON k = Some (JObj top) ->
     total_cell k = (k, Raise (KeyError (KInt 0)))).
Proof.
  split; [|split; [|split]].
  - intros k total. rewrite total_cell_effect. split.
    + destruct (indicatorsJSON k) as [env|]; [|discriminate].
      destruct env as [| | |s|[|[| | | | |paging] rest]|top]; cbn; try discriminate.
      * destruct (String.get 0 s); discriminate.
      * destruct (assoc "total" paging) as [t|] eqn:E; cbn; [|discriminate].
        intros H. inversion H; subst. exists paging, rest. split; [reflexivity|exact E].
    + intros (paging & rest & -> & Ht). cbn. rewrite Ht. reflexivity.
  - intros k total. rewrite total_cell_effect.
    destruct (indicatorsJSON k) as [env|]; [|discriminate].
    destruct (pbind (getitem_int env 0) (fun paging => getitem_str paging "total"));
      cbn [fst snd]; [|discriminate].
    intros H. inversion H; subst. reflexivity.
  - intros k H. rewrite total_cell_effect, H. reflexivity.
  - intros k top H. rewrite total_cell_effect, H. reflexivity.
Qed.

(** ** The location cells, stopped and chained *)






(** ** The source cell *)





(** ** The R lookup over columns with missing entries *)

Lemma R_which_bounds (b : list (option bool)) (pos : nat) :
  Forall (fun i => pos <= i < pos + List.length b) (R.which_from pos b).
Proof.
  revert pos; induction b as [|o b IH]; intros pos; [constructor|].
  assert (Hrest : Forall (fun i => pos <= i < pos + List.length (o :: b))
                         (R.which_from (S pos) b)).
  { eapply Forall_impl; [|apply IH]. cbn [List.length]. intros i Hi. lia. }
  cbn [R.which_from]. destruct o as [[|]|]; try exact Hrest.
  constructor; [cbn [List.length]; lia|exact Hrest].
Qed.

Lemma R_which_sorted (b : list (option bool)) (pos : nat) :
  StronglySorted lt (R.which_from pos b).
Proof.
  revert pos; induction b as [|o b IH]; intros pos; [constructor|].
  cbn [R.which_from]. destruct o as [[|]|]; try apply IH.
  constructor; [apply IH|].
  eapply Forall_impl; [|apply R_which_bounds]. intros i Hi. cbn beta in Hi. lia.
Qed.

Lemma R_lookup_from (indicator : string) :
  forall (ids notes prefix : R.character),
    List.length ids = List.length notes ->
    R.subscript (prefix ++ notes)
      (R.which_from (S (List.length prefix)) (R.eq ids indicator))
    = map snd (filter (fun r => R_equal indicator (fst r)) (combine ids notes)).
Proof.
  unfold R.subscript, R.eq.
  induction ids as [|o ids IH]; intros notes prefix Hlen; [reflexivity|].
  destruct notes as [|n notes]; [discriminate|].
  cbn [List.length] in Hlen. injection Hlen as Hlen.
  specialize (IH notes (prefix ++ [n]) Hlen).
  rewrite <- app_assoc, length_app, Nat.add_1_r in IH. cbn [app] in IH.
  destruct o as [t|];
    cbn [map option_map R.which_from combine filter fst R_equal]; [|exact IH].
  destruct (String.eqb t indicator); [|exact IH].
  cbn [map snd]. rewrite IH. f_equal.
  rewrite Nat.sub_1_r. cbn [Nat.pred].
  rewrite nth_error_app2, Nat.sub_diag by lia. reflexivity.
Qed.

(** X10. The R lookup, [which(id == indicator)] then the subscript of
    [sourceNote], over two columns of one length: the positions found are
    within the column, strictly increasing, and are those of the rows whose
    [id] is the indicator; a row whose [id] is [NA] is passed over; the
    result has one entry per row found, that row's note, [NA] where the note
    is missing. *)
Theorem R_lookup_reads_matching_rows
    (id sourceNote : R.character) (indicator : string) :
  List.length id = List.length sourceNote ->
  Forall (fun i => 1 <= i <= List.length id) (R.definition id indicator) /\
  StronglySorted lt (R.definition id indicator) /\
  (forall i, In i (R.definition id indicator) <->
             1 <= i /\ nth_error id (i - 1) = Some (Some indicator)) /\
  R.sourceNote_at sourceNote (R.definition id indicator)
  = map snd (filter (fun r => R_equal indicator (fst r)) (combine id sourceNote)).
Proof.
  intros Hlen. unfold R.definition, R.which, R.sourceNote_at.
  split.
  { eapply Forall_impl; [|apply R_which_bounds]. intros i Hi. cbn beta in Hi.
    unfold R.eq in Hi. rewrite length_map in Hi. lia. }
  split; [apply R_which_sorted|].
  split; [|exact (R_lookup_from indicator id sourceNote [] Hlen)].
  assert (Hin : forall ids pos i,
            In i (R.which_from pos (R.eq ids indicator)) <->
            pos <= i /\ nth_error ids (i - pos) = Some (Some indicator)).
  { unfold R.eq. induction ids as [|o ids IH]; intros pos i.
    - cbn. split; [tauto|]. intros [_ H]. destruct (i - pos); discriminate.
    - cbn [map option_map R.which_from].
      assert (Hrest : In i (R.which_from (S pos)
                             (map (option_map (fun t => String.eqb t indicator)) ids))
                      <-> pos < i /\ nth_error (o :: ids) (i - pos)
                                     = Some (Some indicator)).
      { rewrite IH. split.
        - intros [H1 H2]. split; [lia|].
          replace (i - pos) with (S (i - S pos)) by lia. exact H2.
        - intros [H1 H2]. split; [lia|].
          replace (i - pos) with (S (i - S pos)) in H2 by lia. exact H2. }
      destruct o as [t|]; cbn [option_map].
      + destruct (String.eqb t indicator) eqn:E.
        * cbn [In]. rewrite Hrest. apply String.eqb_eq in E. subst t. split.
          -- intros [<-|[H1 H2]]; [|split; [lia|exact H2]].
             split; [lia|]. rewrite Nat.sub_diag. reflexivity.
          -- intros [H1 H2]. destruct (Nat.eq_dec pos i) as [->|N]; [left; reflexivity|].
             right. split; [lia|exact H2].
        * rewrite Hrest. split; [intros [H1 H2]; split; [lia|exact H2]|].
          intros [H1 H2]. split; [|exact H2].
          destruct (Nat.eq_dec pos i) as [->|N]; [|lia].
          rewrite Nat.sub_diag in H2. cbn in H2. inversion H2; subst.
          rewrite String.eqb_refl in E. discriminate.
      + rewrite Hrest. split; [intros [H1 H2]; split; [lia|exact H2]|].
        intros [H1 H2]. split; [|exact H2].
        destruct (Nat.eq_dec pos i) as [->|N]; [|lia].
        rewrite Nat.sub_diag in H2. cbn in H2. discriminate. }
  intros i. apply Hin.
Qed.

(** Three rows, the second with a missing [id], the third with a missing
    note. *)
Lemma R_lookup_with_NA :
  R.definition [Some "DT.DOD.DLXF.CD"; None; Some "DT.DOD.DLXF.CD"] "DT.DOD.DLXF.CD"
  = [1; 3] /\
  R.sourceNote_at [Some "Long-term debt"; Some "other"; None]
    (R.definition [Some "DT.DOD.DLXF.CD"; None; Some "DT.DOD.DLXF.CD"]
       "DT.DOD.DLXF.CD")
  = [Some "Long-term debt"; None].
Proof.
  destruct (R_lookup_reads_matching_rows
              [Some "DT.DOD.DLXF.CD"; None; Some "DT.DOD.DLXF.CD"]
              [Some "Long-term debt"; Some "other"; None]
              "DT.DOD.DLXF.CD" eq_refl) as (_ & _ & _ & H).
  split; [reflexivity|exact H].
Defined.

Lemma R_rows_past_end (col : R.character) :
  forall (n from : nat),
    List.length col < from ->
    R.subscript col (seq from n) = repeat None n.
Proof.
  unfold R.subscript.
  induction n as [|n IH]; intros from Hfrom; [reflexivity|].
  cbn [seq map repeat]. rewrite (IH (S from)) by lia.
  assert (E : nth_error col (from - 1) = None)
    by (apply nth_error_None; lia).
  rewrite E. reflexivity.
Qed.

Lemma R_rows_from :
  forall (n : nat) (col prefix : R.character),
    R.subscript (prefix ++ col) (seq (S (List.length prefix)) n)
    = firstn n col ++ repeat None (n - List.length col).
Proof.
  induction n as [|n IH]; intros col prefix; [reflexivity|].
  destruct col as [|x col].
  - rewrite app_nil_r. cbn [firstn app List.length]. rewrite Nat.sub_0_r.
    apply R_rows_past_end. lia.
  - specialize (IH col (prefix ++ [x])).
    rewrite <- app_assoc, length_app, Nat.add_1_r in IH. cbn [app] in IH.
    unfold R.subscript in *. cbn [seq map firstn app List.length Nat.sub].
    rewrite IH. f_equal.
    rewrite Nat.sub_0_r, nth_error_app2, Nat.sub_diag by lia. reflexivity.
Qed.

(** X17. The view [1:n] of the R guide always has [n] rows: the first [n]
    of the list when the list is that long, and otherwise the whole list
    followed by [NA] rows up to [n]. *)
Theorem R_first_rows_pads_with_NA :
  (forall col n, List.length (R_first_rows col n) = n) /\
  (forall col n,
     n <= List.length col -> R_first_rows col n = firstn n col) /\
  (forall col n,
     List.length col <= n ->
     R_first_rows col n = col ++ repeat None (n - List.length col)).
Proof.
  assert (H : forall col n,
            R_first_rows col n = firstn n col ++ repeat None (n - List.length col)).
  { intros col n. exact (R_rows_from n col []). }
  split; [|split].
  - intros col n. rewrite H, length_app, length_firstn, repeat_length. lia.
  - intros col n Hn. rewrite H.
    replace (n - List.length col) with 0 by lia. apply app_nil_r.
  - intros col n Hn. rewrite H, firstn_all2 by exact Hn. reflexivity.
Qed.

(** Two creditor names viewed through [1:5]. *)
Lemma R_first_rows_of_two :
  R_first_rows [Some "Austria"; Some "Belgium"] 5
  = [Some "Austria"; Some "Belgium"] ++ repeat None (5 - 2).
Proof.
  apply (proj2 (proj2 R_first_rows_pads_with_NA)).
  apply Nat.leb_le. reflexivity.
Defined.

(** ** [formatNum] as a function on the number line *)

Lemma billions (x : Q) :
  ((x / inject_Z 1000000000) * (1000000000 # 1) == x)%Q.
Proof.
  change (inject_Z 1000000000) with (1000000000 # 1)%Q.
  rewrite Qmult_comm. apply Qmult_div_r. discriminate.
Qed.

Lemma formatNum_nearest (x : Q) :
  (- (1 # 2) <= inject_Z (formatNum x) - x / inject_Z 1000000000 <= 1 # 2)%Q /\
  ((Qabs (inject_Z (formatNum x) - x / inject_Z 1000000000) == 1 # 2)%Q ->
   Z.even (formatNum x) = true).
Proof.
  unfold formatNum.
  destruct (py_round_nearest (x / inject_Z 1000000000)) as [H1 H2].
  split; [apply Qabs_Qle_condition; exact H1|exact H2].
Qed.

(** X11. [formatNum] keeps the order of the amounts: a larger amount never
    gets a smaller number of billions. *)
Theorem formatNum_monotone (x y : Q) :
  (x <= y)%Q -> (formatNum x <= formatNum y)%Z.
Proof.
  intros Hxy.
  destruct (formatNum_nearest x) as [[Ha1 Ha2] Ha3].
  destruct (formatNum_nearest y) as [[Hb1 Hb2] Hb3].
  pose proof (billions x) as Hx. pose proof (billions y) as Hy.
  set (a := (x / inject_Z 1000000000)%Q) in *.
  set (b := (y / inject_Z 1000000000)%Q) in *.
  set (ra := formatNum x) in *. set (rb := formatNum y) in *.
  destruct (Z.le_gt_cases ra rb) as [Hle|Hgt]; [exact Hle|exfalso].
  assert (Hq : (inject_Z rb + 1 <= inject_Z ra)%Q).
  { change 1%Q with (inject_Z 1). rewrite <- inject_Z_plus, <- Zle_Qle. lia. }
  assert (Hab : (a <= b)%Q) by lra.
  assert (Hea : Z.even ra = true).
  { apply Ha3. rewrite Qabs_pos by lra. lra. }
  assert (Heb : Z.even rb = true).
  { apply Hb3. rewrite Qabs_neg by lra. lra. }
  assert (Hone : (inject_Z ra <= inject_Z (rb + 1))%Q).
  { rewrite inject_Z_plus. change (inject_Z 1) with 1%Q. lra. }
  rewrite <- Zle_Qle in Hone.
  assert (Hra : ra = (rb + 1)%Z) by lia.
  rewrite Hra, Z.even_add, Heb in Hea. discriminate Hea.
Qed.

(** Half a billion and a billion and a half: 0 and 2. *)
Lemma formatNum_monotone_halves :
  (formatNum (inject_Z 500000000) <= formatNum (inject_Z 1500000000))%Z.
Proof.
  apply formatNum_monotone.
  unfold Qle. cbn. apply Z.leb_le. reflexivity.
Defined.

(** X12. [formatNum] treats debts and credits alike: the number of
    billions of [-x] is the opposite of that of [x], ties included. *)
Theorem formatNum_opposite (x : Q) :
  formatNum (- x) = (- formatNum x)%Z.
Proof.
  symmetry. unfold formatNum at 2. apply py_round_unique.
  - destruct (formatNum_nearest x) as [[H1 H2] _].
    pose proof (billions x) as Hx. pose proof (billions (- x)) as Hn.
    set (a := (x / inject_Z 1000000000)%Q) in *.
    set (b := (- x / inject_Z 1000000000)%Q) in *.
    rewrite inject_Z_opp. apply Qabs_Qle_condition. split; lra.
  - intros Ht. rewrite Z.even_opp.
    destruct (formatNum_nearest x) as [[H1 H2] H3]. apply H3.
    pose proof (billions x) as Hx. pose proof (billions (- x)) as Hn.
    set (a := (x / inject_Z 1000000000)%Q) in *.
    set (b := (- x / inject_Z 1000000000)%Q) in *.
    rewrite inject_Z_opp in Ht.
    assert (Hba : (b == - a)%Q) by lra.
    assert (Hsame : (- inject_Z (formatNum x) - b
                     == - (inject_Z (formatNum x) - a))%Q) by lra.
    rewrite Hsame, Qabs_opp in Ht. exact Ht.
Qed.



(** ** What the cleanup leaves alone *)

Section CleanNames.

Local Open Scope string_scope.

Lemma drop_char_length (c : ascii) (s : string) :
  String.length (drop_char c s) <= String.length s.
Proof.
  induction s as [|a s IH]; [apply Nat.le_refl|].
  cbn [drop_char]. destruct (Ascii.eqb a c); cbn [String.length]; lia.
Qed.

Lemma erase_length (pat : string) :
  forall (s : string) (skip : nat),
    String.length (replace_from pat "" skip s) <= String.length s.
Proof.
  induction s as [|a s IH]; intros skip; [apply Nat.le_refl|].
  cbn [replace_from]. destruct skip as [|n].
  - destruct (String.prefix pat (String a s)).
    + cbn [append String.length].
      specialize (IH (String.length pat - 1)). lia.
    + cbn [String.length]. specialize (IH 0). lia.
  - cbn [String.length]. specialize (IH n). lia.
Qed.

Lemma erase_shortens (pat s : string) :
  pat <> "" ->
  occurs pat s = true ->
  String.length (replace_from pat "" 0 s) < String.length s.
Proof.
  intros Hne. induction s as [|a s IH].
  - destruct pat; [congruence|discriminate].
  - cbn [occurs replace_from]. intros H.
    destruct (String.prefix pat (String a s)).
    + cbn [append String.length].
      pose proof (erase_length pat s (String.length pat - 1)). lia.
    + cbn [orb] in H. cbn [String.length]. specialize (IH H). lia.
Qed.

Lemma clean_region_length (name : string) :
  String.length (clean_region name)
  <= String.length (str_replace excluding "" name).
Proof.
  rewrite clean_region_parens.
  eapply Nat.le_trans; [apply drop_char_length|apply drop_char_length].
Qed.

(** X14. The cleanup never lengthens a name, and the names it returns
    unchanged are exactly those with no parenthesis and without the words
    "excluding high income".  Cleaning a cleaned name changes nothing more,
    unless deleting a parenthesis brought those words together: the cleanup
    of "excluding high( income" still reads "excluding high income", and a
    second pass empties it. *)
Theorem clean_region_fixed_names :
  (forall name, String.length (clean_region name) <= String.length name) /\
  (forall name,
     clean_region name = name <->
     occurs "(" name = false /\ occurs ")" name = false /\
     occurs excluding name = false) /\
  (forall name,
     occurs excluding (clean_region name) = false ->
     clean_region (clean_region name) = clean_region name) /\
  clean_region "excluding high( income" = "excluding high income" /\
  clean_region (clean_region "excluding high( income") = "".
Proof.
  assert (Hlen : forall name,
            String.length (clean_region name) <= String.length name).
  { intros name. eapply Nat.le_trans; [apply clean_region_length|].
    apply (erase_length excluding name 0). }
  assert (Hclean : forall name,
            occurs "(" (clean_region name) = false /\
            occurs ")" (clean_region name) = false).
  { intros name. rewrite clean_region_parens. split.
    - apply (drop_char_gone "(").
    - apply (drop_char_keeps_absent "(" ")"), (drop_char_gone ")"). }
  assert (Hfix : forall name,
            occurs "(" name = false -> occurs ")" name = false ->
            occurs excluding name = false -> clean_region name = name).
  { intros name H1 H2 He. rewrite clean_region_no_excluding by exact He.
    rewrite (drop_char_absent ")" name H2). apply drop_char_absent, H1. }
  split; [exact Hlen|]. split; [|split; [|split; reflexivity]].
  - intros name. split.
    + intros Heq. destruct (Hclean name) as [H1 H2]. rewrite Heq in H1, H2.
      split; [exact H1|]. split; [exact H2|].
      destruct (occurs excluding name) eqn:E; [exfalso|reflexivity].
      pose proof (erase_shortens excluding name ltac:(discriminate) E) as Hs.
      pose proof (clean_region_length name) as Hc.
      unfold str_replace, excluding in Hc. unfold excluding in Hs.
      rewrite Heq in Hc. lia.
    + intros (H1 & H2 & He). apply Hfix; assumption.
  - intros name He. destruct (Hclean name) as [H1 H2]. apply Hfix; assumption.
Qed.

End CleanNames.

(** ** What a page holds, and what a lookup can find in it *)

Lemma firstn_within {A} (n : nat) (pre rest : list A) :
  n <= List.length pre -> firstn n (pre ++ rest) = firstn n pre.
Proof.
  intros H. rewrite firstn_app.
  replace (n - List.length pre) with 0 by lia.
  cbn [firstn]. apply app_nil_r.
Qed.

(** X15. A lookup after the guide's request can only find what the first
    page holds: when 500 or more well-formed records without the code come
    first, the record sought lies past the page, and the lookup completes
    without an exception and prints nothing, just as if the catalog had no
    such record. *)
Theorem lookup_misses_past_page
    (indicator fld : string) (pre post : list json) (sought : json)
    (k : Kernel) :
  500 <= List.length pre ->
  forallb (has_key "id") pre = true ->
  forallb (fun e => negb (is_match indicator e)) pre = true ->
  is_match indicator sought = true ->
  let run := fetch_then_define (flat_server (pre ++ sought :: post))
               indicator fld k in
  snd run = Ok tt /\
  stdout (fst run) = stdout k /\
  snd (total_cell (fst run))
  = Ok (JNum (Z.of_nat (List.length (pre ++ sought :: post)))).
Proof.
  intros Hlen Hid Hno _ run.
  set (catalog := pre ++ sought :: post).
  set (k1 := set_indicatorsJSON (flat_body catalog 500)
               (log_request (indicators_url (Some 500)) k)).
  assert (Hrun : run = definition_cell indicator fld k1).
  { unfold run, fetch_then_define, bind at 1. rewrite fetch_indicators_run.
    reflexivity. }
  assert (Hsel : selected indicator (firstn 500 pre) = []).
  { apply no_match_selected, forallb_firstn, Hno. }
  destruct (definition_cell_list indicator fld k1 (flat_body catalog 500)
              (firstn 500 pre)) as [Hres Hout].
  - reflexivity.
  - cbn [flat_body getitem_int nth_error]. unfold catalog.
    rewrite (firstn_within 500 pre (sought :: post) Hlen). reflexivity.
  - apply forallb_firstn, Hid.
  - rewrite Hsel. reflexivity.
  - rewrite Hrun. split; [exact Hres|]. split.
    + rewrite Hout, Hsel. cbn [map]. rewrite app_nil_r. reflexivity.
    + destruct (reading_globals indicator fld k1) as (_ & Hj & _).
      rewrite (total_cell_run _ (flat_body catalog 500)) by (rewrite Hj; reflexivity).
      rewrite total_of_flat_body. reflexivity.
Qed.

(** The guide's record served after 500 others: not found, though the
    total says 501. *)
Lemma lookup_misses_record_501 :
  let run := fetch_then_define (flat_server (numbered_catalog 500 ++ DLXF :: []))
               "DT.DOD.DLXF.CD" "sourceNote" fresh_kernel in
  snd run = Ok tt /\
  stdout (fst run) = [] /\
  snd (total_cell (fst run)) = Ok (JNum 501).
Proof.
  assert (Hlen : 500 <= List.length (numbered_catalog 500))
    by (apply Nat.leb_le; vm_compute; reflexivity).
  assert (Hid : forallb (has_key "id") (numbered_catalog 500) = true)
    by (vm_compute; reflexivity).
  assert (Hno : forallb (fun e => negb (is_match "DT.DOD.DLXF.CD" e))
                  (numbered_catalog 500) = true)
    by (vm_compute; reflexivity).
  destruct (lookup_misses_past_page "DT.DOD.DLXF.CD" "sourceNote"
              (numbered_catalog 500) [] DLXF fresh_kernel Hlen Hid Hno eq_refl)
    as (H1 & H2 & H3).
  split; [exact H1|]. split; [exact H2|].
  rewrite H3. vm_compute. reflexivity.
Defined.

(** X16. How a caller can tell a complete fetch from a truncated one: the
    indicator cell reads as many records as the smaller of the page size
    and the catalog, the stored paging header gives the size of the
    catalog, and the two numbers agree exactly when the catalog fits the
    page; the records are then those of the whole catalog. *)
Theorem fetch_complete_iff_total
    (catalog : list json) (q : Query) (k : Kernel) :
  forallb (has_keys ["id"; "name"]) catalog = true ->
  let run := indicators_cell (flat_server catalog) q k in
  exists recs,
    snd run = Ok recs /\
    List.length recs = Nat.min (page_size q) (List.length catalog) /\
    snd (total_cell (fst run)) = Ok (JNum (Z.of_nat (List.length catalog))) /\
    (List.length recs = List.length catalog <->
     List.length catalog <= page_size q) /\
    (List.length catalog <= page_size q -> recs = map flat_pair catalog).
Proof.
  intros Hwf run. unfold run.
  rewrite (indicators_cell_flat catalog q k) by (apply forallb_firstn, Hwf).
  exists (map flat_pair (firstn (page_size q) catalog)). cbn [fst snd].
  assert (Hn : List.length (map flat_pair (firstn (page_size q) catalog))
               = Nat.min (page_size q) (List.length catalog))
    by (rewrite length_map, length_firstn; reflexivity).
  split; [reflexivity|]. split; [exact Hn|]. split.
  { destruct (bind_tuples_frame (map flat_pair (firstn (page_size q) catalog))
                (set_indicatorsJSON (flat_body catalog (page_size q))
                   (log_request q k))) as (_ & _ & Hj & _).
    rewrite (total_cell_run _ (flat_body catalog (page_size q)))
      by (rewrite Hj; reflexivity).
    rewrite total_of_flat_body. reflexivity. }
  split; [rewrite Hn; lia|].
  intros Hfit. rewrite firstn_all2 by exact Hfit. reflexivity.
Qed.

(** The guide's own request: 500 a page, 569 indicators. *)
Lemma fetch_500_of_569_incomplete :
  exists recs,
    snd (indicators_cell (flat_server (numbered_catalog 569))
           (indicators_url (Some 500)) fresh_kernel) = Ok recs /\
    List.length recs = 500.
Proof.
  assert (Hwf : forallb (has_keys ["id"; "name"]) (numbered_catalog 569) = true)
    by (vm_compute; reflexivity).
  destruct (fetch_complete_iff_total (numbered_catalog 569)
              (indicators_url (Some 500)) fresh_kernel Hwf)
    as (recs & H1 & H2 & _).
  exists recs. split; [exact H1|].
  rewrite H2. vm_compute. reflexivity.
Defined.
